(** * pdf2pps front end: the upload/process controller of [App.tsx]

    The component [App] keeps six React state variables and three event
    handlers: [handleFileChange], [handleUpload] (async, two awaited
    requests) and [handleDownload].  The handlers are embedded as programs
    over the component's setters, the two awaited network operations and
    [window.open]; a handler closes over the state of the render in which
    it was created, so each one is a function of that state.

    Two semantics are given to the same programs: [run], which executes a
    handler to completion against fixed network outcomes, and [step], an
    event loop in which other UI events may interleave at every [await];
    [run_amid] is [run] with such events handled at each [await]. *)

From Stdlib Require Import String List Bool Arith Lia.
Import ListNotations.
Open Scope string_scope.

Set Implicit Arguments.

(** ** Data model *)

(** A browser [File]: name, declared MIME type and contents. *)
Record File : Type := mkFile {
  file_name : string;
  file_type : string;
  file_blob : list Byte.byte
}.

(** An element of [processData.slides]. *)
Record Slide : Type := mkSlide {
  title : string;
  content : list string
}.

(** The six [useState] cells of [App] (lines 15-20). *)
Record State : Type := mkState {
  file : option File;
  uploading : bool;
  processing : bool;
  error : option string;
  presentationId : option string;
  slides : list Slide
}.

(** The initial values passed to [useState]. *)
Definition initial_state : State :=
  {| file := None; uploading := false; processing := false;
     error := None; presentationId := None; slides := [] |}.

(** JavaScript truthiness of a [string | null] value: [null] and the empty
    string are falsy, as in [if (presentationId)]. *)
Definition truthy (v : option string) : bool :=
  match v with
  | Some s => negb (s =? "")
  | None => false
  end.

(** ** The network interface *)

(** A value caught by [catch (err)]: an [Error] object with its [message],
    or any other thrown value. *)
Inductive Thrown : Type :=
| ErrorObject (message : string)
| OtherValue.

(** The settlement of an awaited promise. *)
Inductive Awaited (A : Type) : Type :=
| Resolved (a : A)
| Rejected (err : Thrown).
Arguments Rejected {A} err.

(** The two endpoints the component posts to, and the JSON each answers
    with. *)
Inductive Endpoint : Type := UploadPdf | ProcessPdf.

(** The bodies are taken as the server's interface types them; [json()]
    is untyped in the source, and an answer outside these types (a
    missing or [null] field) is not modelled. *)
Record UploadData : Type := mkUploadData {
  upload_filename : string
}.

Record ProcessData : Type := mkProcessData {
  process_filename : string;
  process_slides : list Slide
}.

Definition Payload (e : Endpoint) : Type :=
  match e with
  | UploadPdf => UploadData
  | ProcessPdf => ProcessData
  end.

(** The part of a fetch [Response] the component reads: [ok], [statusText]
    and what [json()] settles to. *)
Record Response (A : Type) : Type := mkResponse {
  ok : bool;
  statusText : string;
  json_body : Awaited A
}.

(** The body of a request: the [FormData] with its [file] field, or the
    result of [JSON.stringify({ filename })]. *)
Inductive Body : Type :=
| FormData (fields : list (string * File))
| JsonFilename (filename : string).

(** [fetch(url, { method, headers, body })]. *)
Record Request : Type := mkRequest {
  url : string;
  method : string;
  headers : list (string * string);
  body : Body
}.

(** ** Handler programs *)

(** The synchronous statements a handler executes: the six setters and
    [window.open]. *)
Inductive Action : Type :=
| setFile (f : option File)
| setUploading (b : bool)
| setProcessing (b : bool)
| setError (e : option string)
| setPresentationId (p : option string)
| setSlides (l : list Slide)
| windowOpen (target_url : string) (target : string).

(** A handler body.  [AwaitFetch] and [AwaitJson] are the suspension
    points of an async function; their continuation receives how the
    promise settled. *)
Inductive Prog (R : Type) : Type :=
| Ret (r : R)
| Throw (err : Thrown)
| Do (a : Action) (k : Prog R)
| AwaitFetch (e : Endpoint) (req : Request)
    (k : Awaited (Response (Payload e)) -> Prog R)
| AwaitJson (e : Endpoint) (resp : Response (Payload e))
    (k : Awaited (Payload e) -> Prog R).
Arguments Throw {R} err.

Fixpoint bind {A B : Type} (p : Prog A) (f : A -> Prog B) : Prog B :=
  match p with
  | Ret a => f a
  | Throw err => Throw err
  | Do a k => Do a (bind k f)
  | AwaitFetch e req k => AwaitFetch e req (fun r => bind (k r) f)
  | AwaitJson e resp k => AwaitJson e resp (fun r => bind (k r) f)
  end.

(** [try { body } catch (err) { handler err }]. *)
Fixpoint try_catch {A : Type} (body : Prog A) (handler : Thrown -> Prog A)
  : Prog A :=
  match body with
  | Ret a => Ret a
  | Throw err => handler err
  | Do a k => Do a (try_catch k handler)
  | AwaitFetch e req k => AwaitFetch e req (fun r => try_catch (k r) handler)
  | AwaitJson e resp k => AwaitJson e resp (fun r => try_catch (k r) handler)
  end.

(** [await p]: the resolved value, or the rejection rethrown. *)
Definition settle_await {A : Type} (r : Awaited A) : Prog A :=
  match r with
  | Resolved a => Ret a
  | Rejected err => Throw err
  end.

Definition call (a : Action) : Prog unit := Do a (Ret tt).

Definition fetch (e : Endpoint) (req : Request) : Prog (Response (Payload e)) :=
  AwaitFetch e req settle_await.

Definition json (e : Endpoint) (resp : Response (Payload e)) : Prog (Payload e) :=
  AwaitJson e resp settle_await.

Declare Scope prog_scope.
Delimit Scope prog_scope with prog.
Notation "x <- p ;; q" := (bind p (fun x => q))
  (at level 61, p at next level, right associativity) : prog_scope.
Notation "p ;; q" := (bind p (fun _ => q))
  (at level 61, right associativity) : prog_scope.
Notation "'try' p 'catch' err => h" := (try_catch p (fun err => h))
  (at level 61, p at level 200, err name, h at level 61) : prog_scope.

Unset Implicit Arguments.

(** ** Running a handler *)

(** What a handler leaves behind, in program order: setter and
    [window.open] calls, and the requests handed to [fetch]. *)
Inductive Effect : Type :=
| Performed (a : Action)
| Requested (req : Request).

Record World : Type := mkWorld {
  state : State;
  log : list Effect
}.

Definition start (s : State) : World := {| state := s; log := [] |}.

(** The effect of a statement on the state cells.  A setter replaces its
    own cell; [window.open] touches none. *)
Definition perform (a : Action) (s : State) : State :=
  match a with
  | setFile f =>
      mkState f (uploading s) (processing s) (error s) (presentationId s) (slides s)
  | setUploading b =>
      mkState (file s) b (processing s) (error s) (presentationId s) (slides s)
  | setProcessing b =>
      mkState (file s) (uploading s) b (error s) (presentationId s) (slides s)
  | setError e =>
      mkState (file s) (uploading s) (processing s) e (presentationId s) (slides s)
  | setPresentationId p =>
      mkState (file s) (uploading s) (processing s) (error s) p (slides s)
  | setSlides l =>
      mkState (file s) (uploading s) (processing s) (error s) (presentationId s) l
  | windowOpen _ _ => s
  end.

Definition execute (a : Action) (w : World) : World :=
  {| state := perform a (state w); log := log w ++ [Performed a] |}.

Definition send (req : Request) (w : World) : World :=
  {| state := state w; log := log w ++ [Requested req] |}.

(** How the server answers during one run of a handler. *)
Record Network : Type := mkNetwork {
  upload_pdf : Awaited (Response UploadData);
  process_pdf : Awaited (Response ProcessData)
}.

Definition respond (net : Network) (e : Endpoint)
  : Awaited (Response (Payload e)) :=
  match e with
  | UploadPdf => upload_pdf net
  | ProcessPdf => process_pdf net
  end.

(** How a handler call ends: it returns, or its promise rejects. *)
Inductive Completion : Type :=
| Returned
| Uncaught (err : Thrown).

(** A handler run to completion with no other event in between. *)
Fixpoint run (net : Network) (p : Prog unit) (w : World) : Completion * World :=
  match p with
  | Ret _ => (Returned, w)
  | Throw err => (Uncaught err, w)
  | Do a k => run net k (execute a w)
  | AwaitFetch e req k => run net (k (respond net e)) (send req w)
  | AwaitJson e resp k => run net (k (json_body resp)) w
  end.

Definition requests (l : list Effect) : list Request :=
  flat_map (fun ef => match ef with Requested req => [req] | _ => [] end) l.

Definition opened (l : list Effect) : list (string * string) :=
  flat_map (fun ef => match ef with
                      | Performed (windowOpen u t) => [(u, t)]
                      | _ => []
                      end) l.

Definition stored_presentations (l : list Effect) : list (option string) :=
  flat_map (fun ef => match ef with
                      | Performed (setPresentationId p) => [p]
                      | _ => []
                      end) l.

Definition stored_slides (l : list Effect) : list (list Slide) :=
  flat_map (fun ef => match ef with
                      | Performed (setSlides sl) => [sl]
                      | _ => []
                      end) l.

(** ** The event loop *)

(** An async handler parked at an [await]. *)
Inductive Suspended : Type :=
| OnFetch (e : Endpoint) (k : Awaited (Response (Payload e)) -> Prog unit)
| OnJson (e : Endpoint) (resp : Response (Payload e))
    (k : Awaited (Payload e) -> Prog unit).

(** A handler runs without interruption up to its next [await]. *)
Fixpoint advance (p : Prog unit) (w : World) : World * option Suspended :=
  match p with
  | Ret _ => (w, None)
  | Throw _ => (w, None)
  | Do a k => advance k (execute a w)
  | AwaitFetch e req k => (send req w, Some (OnFetch e k))
  | AwaitJson e resp k => (w, Some (OnJson e resp k))
  end.

Record Config : Type := mkConfig {
  world : World;
  inflight : list Suspended
}.

Definition park (c : World * option Suspended) (others : list Suspended) : Config :=
  {| world := fst c;
     inflight := others ++ match snd c with Some t => [t] | None => [] end |}.

(** The five session states of the specification, read off the state
    cells: a raised flag decides alone; with both flags down, a stored
    error message wins over a stored presentation identifier. *)
Inductive Phase : Type := Idle | Uploading | Processing | Ready | Errored.

Definition is_set {A : Type} (v : option A) : bool :=
  match v with Some _ => true | None => false end.

Definition in_phase (ph : Phase) (s : State) : bool :=
  match ph with
  | Uploading => uploading s
  | Processing => processing s
  | Errored => negb (uploading s) && negb (processing s) && is_set (error s)
  | Ready => negb (uploading s) && negb (processing s) && negb (is_set (error s))
             && is_set (presentationId s)
  | Idle => negb (uploading s) && negb (processing s) && negb (is_set (error s))
            && negb (is_set (presentationId s))
  end.

(** ** The component *)

Section Component.

(** [import.meta.env.VITE_API_URL], absent when the variable is not set. *)
Variable VITE_API_URL : option string.

(** Line 12: [import.meta.env.VITE_API_URL || 'http://localhost:8000']. *)
Definition API_URL : string :=
  match VITE_API_URL with
  | Some u => if u =? "" then "http://localhost:8000" else u
  | None => "http://localhost:8000"
  end.

Definition upload_request (f : File) : Request :=
  {| url := API_URL ++ "/upload-pdf/";
     method := "POST";
     headers := [];
     body := FormData [("file", f)] |}.

Definition process_request (fileId : string) : Request :=
  {| url := API_URL ++ "/process-pdf/";
     method := "POST";
     headers := [("Content-Type", "application/json")];
     body := JsonFilename fileId |}.

Definition download_url (id : string) : string :=
  API_URL ++ "/download/" ++ id.

(** Lines 22-32.  The argument is [e.target.files]: [null], or the list of
    chosen files. *)
Definition handleFileChange (files : option (list File)) : Prog unit :=
  match files with
  | Some (selectedFile :: _) =>
      if negb (file_type selectedFile =? "application/pdf") then
        call (setError (Some "Please select a PDF file"))
      else
        (call (setFile (Some selectedFile)) ;;
         call (setError None))%prog
  | _ => Ret tt
  end.

(** Lines 44-80: the body of the [try] block. *)
Definition upload_attempt (f : File) : Prog unit :=
  (uploadResponse <- fetch UploadPdf (upload_request f) ;;
   (if negb (ok uploadResponse) then
      Throw (ErrorObject ("Upload failed: " ++ statusText uploadResponse))
    else Ret tt) ;;
   uploadData <- json UploadPdf uploadResponse ;;
   let fileId := upload_filename uploadData in
   call (setUploading false) ;;
   call (setProcessing true) ;;
   processResponse <- fetch ProcessPdf (process_request fileId) ;;
   (if negb (ok processResponse) then
      Throw (ErrorObject ("Processing failed: " ++ statusText processResponse))
    else Ret tt) ;;
   processData <- json ProcessPdf processResponse ;;
   call (setPresentationId (Some (process_filename processData))) ;;
   call (setSlides (process_slides processData)) ;;
   call (setProcessing false))%prog.

(** Line 82: [err instanceof Error ? err.message : 'An unknown error occurred']. *)
Definition error_text (err : Thrown) : string :=
  match err with
  | ErrorObject message => message
  | OtherValue => "An unknown error occurred"
  end.

(** Lines 81-85: the [catch] block. *)
Definition upload_catch (err : Thrown) : Prog unit :=
  (call (setError (Some (error_text err))) ;;
   call (setUploading false) ;;
   call (setProcessing false))%prog.

(** Lines 34-86, for the render whose state is [s]. *)
Definition handleUpload (s : State) : Prog unit :=
  match file s with
  | None => call (setError (Some "Please select a file first"))
  | Some f =>
      (call (setUploading true) ;;
       call (setError None) ;;
       try upload_attempt f catch err => upload_catch err)%prog
  end.

(** Lines 88-92, for the render whose state is [s]; [if (presentationId)]
    fails for [null] and for the empty string. *)
Definition handleDownload (s : State) : Prog unit :=
  match presentationId s with
  | Some id =>
      if truthy (Some id) then call (windowOpen (download_url id) "_blank")
      else Ret tt
  | None => Ret tt
  end.

(** Line 134: the [disabled] attribute of the convert button. *)
Definition convert_disabled (s : State) : bool :=
  negb (is_set (file s)) || uploading s || processing s.

(** Line 184: the [disabled] attribute of the download button. *)
Definition download_disabled (s : State) : bool :=
  negb (truthy (presentationId s)).

(** One turn of the browser's event loop.  A UI event runs its handler,
    built from the current render, up to the handler's first [await]; a
    settling promise resumes the handler parked on it.  A fetch may settle
    in any way; [json()] settles as its response determines.  The convert
    button is disabled while a flag is raised (line 134); a call with no
    file selected is let through, [handleUpload] guards that case itself. *)
Inductive step : Config -> Config -> Prop :=
| step_file_change c files :
    step c (park (advance (handleFileChange files) (world c)) (inflight c))
| step_convert c :
    uploading (state (world c)) || processing (state (world c)) = false ->
    step c (park (advance (handleUpload (state (world c))) (world c)) (inflight c))
| step_download c :
    step c (park (advance (handleDownload (state (world c))) (world c)) (inflight c))
| step_fetch_settled w before e k after r :
    step {| world := w; inflight := before ++ OnFetch e k :: after |}
         (park (advance (k r) w) (before ++ after))
| step_json_settled w before e resp k after :
    step {| world := w; inflight := before ++ OnJson e resp k :: after |}
         (park (advance (k (json_body resp)) w) (before ++ after)).

(** The configurations the page can be in after it has loaded. *)
Inductive reachable : Config -> Prop :=
| reachable_loaded : reachable {| world := start initial_state; inflight := [] |}
| reachable_step c c' : reachable c -> step c c' -> reachable c'.

(** The state a handler run leaves when no other event is handled while
    it awaits; [run_amid] below lets other events in. *)
Definition state_after (net : Network) (p : Prog unit) (s : State) : State :=
  state (snd (run net p (start s))).

(** What a handler run did. *)
Definition effects_of (net : Network) (p : Prog unit) (s : State) : list Effect :=
  log (snd (run net p (start s))).

(** The ways the [try] block of [handleUpload] is left by an exception:
    a request that cannot be made or answered, a non-success status, a
    body that does not parse; for either request. *)
Inductive raises (net : Network) : Thrown -> Prop :=
| upload_rejected err :
    upload_pdf net = Rejected err ->
    raises net err
| upload_status r :
    upload_pdf net = Resolved r -> ok r = false ->
    raises net (ErrorObject ("Upload failed: " ++ statusText r))
| upload_malformed r err :
    upload_pdf net = Resolved r -> ok r = true ->
    json_body r = Rejected err ->
    raises net err
| process_rejected r d err :
    upload_pdf net = Resolved r -> ok r = true ->
    json_body r = Resolved d ->
    process_pdf net = Rejected err ->
    raises net err
| process_status r d r' :
    upload_pdf net = Resolved r -> ok r = true ->
    json_body r = Resolved d ->
    process_pdf net = Resolved r' -> ok r' = false ->
    raises net (ErrorObject ("Processing failed: " ++ statusText r'))
| process_malformed r d r' err :
    upload_pdf net = Resolved r -> ok r = true ->
    json_body r = Resolved d ->
    process_pdf net = Resolved r' -> ok r' = true ->
    json_body r' = Rejected err ->
    raises net err.

(** How both requests succeed: upload answers [{filename: fileId}],
    process answers [{filename: p, slides: sl}]. *)
Definition both_succeed (st1 fileId st2 p : string) (sl : list Slide) : Network :=
  {| upload_pdf := Resolved (mkResponse true st1 (Resolved (mkUploadData fileId)));
     process_pdf := Resolved (mkResponse true st2 (Resolved (mkProcessData p sl))) |}.

(** [flags_settle p u pr]: started with the flags at [u] and [pr], the
    handler [p] has exactly one flag raised at each of its [await]s,
    however the awaited promises settle, and both flags down when it
    finishes. *)
Fixpoint flags_settle (p : Prog unit) (u pr : bool) : Prop :=
  match p with
  | Ret _ => u = false /\ pr = false
  | Throw _ => u = false /\ pr = false
  | Do a k =>
      flags_settle k
        (match a with setUploading b => b | _ => u end)
        (match a with setProcessing b => b | _ => pr end)
  | AwaitFetch e req k => xorb u pr = true /\ forall r, flags_settle (k r) u pr
  | AwaitJson e resp k => xorb u pr = true /\ forall r, flags_settle (k r) u pr
  end.

Definition parked_well (t : Suspended) (u pr : bool) : Prop :=
  match t with
  | OnFetch e k => xorb u pr = true /\ forall r, flags_settle (k r) u pr
  | OnJson e resp k => xorb u pr = true /\ forall r, flags_settle (k r) u pr
  end.

(** At most one handler is parked; a flag is raised exactly while one is. *)
Definition single_flight (c : Config) : Prop :=
  let s := state (world c) in
  match inflight c with
  | [] => uploading s = false /\ processing s = false
  | [t] => parked_well t (uploading s) (processing s)
  | _ => False
  end.

(** ** What the component renders (lines 94-206) *)

(** [l.map((x, i) => ...)]: each element with its index. *)
Fixpoint indexed_from {A : Type} (i : nat) (l : list A) : list (nat * A) :=
  match l with
  | [] => []
  | x :: rest => (i, x) :: indexed_from (S i) rest
  end.

(** Lines 161-169: one slide of the preview, its [key], heading and
    bullet items with their keys. *)
Record SlideView : Type := mkSlideView {
  slide_key : nat;
  heading : string;
  points : list (nat * string)
}.

Definition slide_view (entry : nat * Slide) : SlideView :=
  {| slide_key := fst entry;
     heading := title (snd entry);
     points := indexed_from 0 (content (snd entry)) |}.

(** The parts of the page that depend on the state. *)
Record View : Type := mkView {
  selected_caption : option string;
  convert_button_disabled : bool;
  convert_spinner : bool;
  convert_label : string;
  progress_panel : option (nat * string);
  preview_panel : option (list SlideView);
  placeholder_panel : bool;
  download_button_disabled : bool;
  download_variant : string;
  error_alert : option string
}.

(** The [return] of [App], for the state [s]. *)
Definition render (s : State) : View :=
  {| selected_caption :=
       match file s with
       | Some f => Some ("Selected: " ++ file_name f)
       | None => None
       end;
     convert_button_disabled := convert_disabled s;
     convert_spinner := uploading s || processing s;
     convert_label :=
       if uploading s then "Uploading..."
       else if processing s then "Processing..."
       else "Convert to Presentation";
     progress_panel :=
       if uploading s || processing s then
         Some (if uploading s then 30 else 70,
               if uploading s then "Uploading PDF..." else "Processing with AI...")
       else None;
     preview_panel :=
       if negb (uploading s) && negb (processing s) && Nat.ltb 0 (List.length (slides s)) then
         Some (map slide_view (indexed_from 0 (slides s)))
       else None;
     placeholder_panel :=
       negb (uploading s) && negb (processing s)
       && Nat.eqb (List.length (slides s)) 0 && negb (truthy (error s));
     download_button_disabled := download_disabled s;
     download_variant := if truthy (presentationId s) then "default" else "outline";
     error_alert := if truthy (error s) then error s else None |}.

(** ** Invariants of the event loop *)

(** [keeps I p]: resumed where [I] holds, [p] reaches its next [await],
    or its end, where [I] holds. *)
Definition keeps (I : World -> Prop) (p : Prog unit) : Prop :=
  forall w, I w -> I (fst (advance p w)).

(** [keeps_on I p]: so does every program an [await] of [p] resumes,
    however the promise settles. *)
Fixpoint keeps_on (I : World -> Prop) (p : Prog unit) : Prop :=
  match p with
  | Ret _ => True
  | Throw _ => True
  | Do a k => keeps_on I k
  | AwaitFetch e req k => forall r, keeps I (k r) /\ keeps_on I (k r)
  | AwaitJson e resp k => forall r, keeps I (k r) /\ keeps_on I (k r)
  end.

Definition parked_keeps (I : World -> Prop) (t : Suspended) : Prop :=
  match t with
  | OnFetch e k => forall r, keeps I (k r) /\ keeps_on I (k r)
  | OnJson e resp k => forall r, keeps I (k r) /\ keeps_on I (k r)
  end.

(** The files handed to the upload endpoint, in order. *)
Definition uploaded_files (l : list Effect) : list File :=
  flat_map (fun ef => match ef with
                      | Requested {| body := FormData fields |} => map snd fields
                      | _ => []
                      end) l.

(** The forms posted to the upload endpoint, one per request, in order. *)
Definition upload_forms (l : list Effect) : list (list (string * File)) :=
  flat_map (fun ef => match ef with
                      | Requested {| body := FormData fields |} => [fields]
                      | _ => []
                      end) l.

(** The identifiers handed to the process endpoint, in order. *)
Definition processed_ids (l : list Effect) : list string :=
  flat_map (fun ef => match ef with
                      | Requested {| body := JsonFilename fileId |} => [fileId]
                      | _ => []
                      end) l.

Definition is_pdf (f : File) : Prop := file_type f = "application/pdf".

(** Only PDFs are selected and only PDFs were uploaded. *)
Definition only_pdfs (w : World) : Prop :=
  (forall f, file (state w) = Some f -> is_pdf f) /\
  Forall is_pdf (uploaded_files (log w)).

(** The two requests of the server's interface. *)
Definition interface_request (req : Request) : Prop :=
  (exists f, req = upload_request f) \/
  (exists fileId, req = process_request fileId).

(** Every request sent so far is one of them. *)
Definition only_interface_requests (w : World) : Prop :=
  Forall interface_request (requests (log w)).

(** A navigation to the download of a non-empty identifier that one of
    the [setPresentationId] calls of [l] stored, in a new browsing
    context. *)
Definition download_of_stored (l : list Effect) (nav : string * string) : Prop :=
  snd nav = "_blank" /\
  exists id, id <> "" /\ fst nav = download_url id /\
             In (Some id) (stored_presentations l).

(** The identifier in the state was stored by a [setPresentationId] call,
    and every window opened so far is a [download_of_stored]. *)
Definition only_stored_downloads (w : World) : Prop :=
  (forall id, presentationId (state w) = Some id ->
              In (Some id) (stored_presentations (log w))) /\
  Forall (download_of_stored (log w)) (opened (log w)).

(** [later c c']: the event loop can take [c] to [c']. *)
Inductive later (c : Config) : Config -> Prop :=
| later_now : later c c
| later_step c' c'' : later c c' -> step c' c'' -> later c c''.

(** [owes p credit]: [p] sends a process request only when an upload was
    sent that no process request has followed yet; [credit] says whether
    there is one when [p] starts. *)
Fixpoint owes (p : Prog unit) (credit : bool) : Prop :=
  match p with
  | Ret _ => True
  | Throw _ => True
  | Do a k => owes k credit
  | AwaitFetch e req k =>
      match body req with
      | FormData _ => forall r, owes (k r) true
      | JsonFilename _ => credit = true /\ forall r, owes (k r) false
      end
  | AwaitJson e resp k => forall r, owes (k r) credit
  end.

Definition parked_owes (t : Suspended) (credit : bool) : Prop :=
  match t with
  | OnFetch e k => forall r, owes (k r) credit
  | OnJson e resp k => forall r, owes (k r) credit
  end.

(** Process requests never outnumber uploads, the parked handler's open
    upload counted. *)
Definition uploads_cover_processing (c : Config) : Prop :=
  let up := List.length (upload_forms (log (world c))) in
  let pr := List.length (processed_ids (log (world c))) in
  match inflight c with
  | [] => pr <= up
  | [t] => exists credit, parked_owes t credit /\
                          pr + (if credit then 1 else 0) <= up
  | _ => False
  end.

(** ** A run amid other events *)

(** What the user can do while a conversion awaits an answer: choose in
    the file dialog, click the download button.  The convert button is
    disabled for that time (line 134). *)
Inductive UiEvent : Type :=
| FileChosen (files : option (list File))
| DownloadClicked.

Definition handler_of (ev : UiEvent) (s : State) : Prog unit :=
  match ev with
  | FileChosen files => handleFileChange files
  | DownloadClicked => handleDownload s
  end.

(** The event's handler, built from the current render, run to its end. *)
Definition handle (w : World) (ev : UiEvent) : World :=
  fst (advance (handler_of ev (state w)) w).

Definition handle_all (evs : list UiEvent) (w : World) : World :=
  fold_left handle evs w.

(** A handler run to completion; at its n-th [await] the events of the
    n-th element of [gaps] are handled before the promise settles. *)
Fixpoint run_amid (net : Network) (gaps : list (list UiEvent))
  (p : Prog unit) (w : World) : Completion * World :=
  match p with
  | Ret _ => (Returned, w)
  | Throw err => (Uncaught err, w)
  | Do a k => run_amid net gaps k (execute a w)
  | AwaitFetch e req k =>
      run_amid net (tl gaps) (k (respond net e))
        (handle_all (hd [] gaps) (send req w))
  | AwaitJson e resp k =>
      run_amid net (tl gaps) (k (json_body resp))
        (handle_all (hd [] gaps) w)
  end.

(** What no such event changes: the flags, the stored result, the
    requests and the result writes logged so far; and a file once
    selected stays selected. *)
Definition untouched (w w' : World) : Prop :=
  uploading (state w') = uploading (state w) /\
  processing (state w') = processing (state w) /\
  presentationId (state w') = presentationId (state w) /\
  slides (state w') = slides (state w) /\
  requests (log w') = requests (log w) /\
  stored_presentations (log w') = stored_presentations (log w) /\
  stored_slides (log w') = stored_slides (log w) /\
  (is_set (file (state w)) = true -> is_set (file (state w')) = true).

(** The error message is [null] or the type error of the file dialog. *)
Definition no_stale_error (w : World) : Prop :=
  error (state w) = None \/ error (state w) = Some "Please select a PDF file".

(** The events that raise the type error: a file of another type chosen. *)
Definition disturbs (ev : UiEvent) : bool :=
  match ev with
  | FileChosen (Some (f :: _)) => negb (file_type f =? "application/pdf")
  | _ => false
  end.

Definition undisturbed (gaps : list (list UiEvent)) : bool :=
  forallb (forallb (fun ev => negb (disturbs ev))) gaps.

(** ** Sample data: the scenario of the specification and its variants *)

Definition report_pdf : File := mkFile "report.pdf" "application/pdf" [].

Definition notes_txt : File := mkFile "notes.txt" "text/plain" [].

Definition intro_slide : Slide := mkSlide "Intro" ["point A"; "point B"].

Definition scenario_network : Network :=
  both_succeed "OK" "abc123" "OK" "abc123.pptx" [intro_slide].

(** The server names the presentation with the empty string. *)
Definition unnamed_network : Network :=
  both_succeed "OK" "abc123" "OK" "" [intro_slide].

Definition upload_refused : Network :=
  {| upload_pdf := Resolved (mkResponse false "Payload Too Large" (Rejected OtherValue));
     process_pdf := Rejected OtherValue |}.

Definition process_refused : Network :=
  {| upload_pdf := Resolved (mkResponse true "OK" (Resolved (mkUploadData "def456")));
     process_pdf := Resolved (mkResponse false "Internal Server Error"
                                (Rejected OtherValue)) |}.

Definition unreachable_network : Network :=
  {| upload_pdf := Rejected OtherValue;
     process_pdf := Rejected OtherValue |}.

(** The page after [report.pdf] was chosen. *)
Definition selected : State :=
  state_after scenario_network (handleFileChange (Some [report_pdf])) initial_state.

(** The page after the conversion of the scenario. *)
Definition converted : State :=
  state_after scenario_network (handleUpload selected) selected.

(** The page after a conversion the server left unnamed. *)
Definition converted_unnamed : State :=
  state_after unnamed_network (handleUpload selected) selected.

(** The event loop after [report.pdf] was chosen, after the conversion of
    the scenario, and after a click on the download button that follows. *)
Definition selected_config : Config :=
  park (advance (handleFileChange (Some [report_pdf])) (start initial_state)) [].

Definition converted_config : Config :=
  {| world := snd (run scenario_network
                     (handleUpload (state (world selected_config)))
                     (world selected_config));
     inflight := [] |}.

Definition downloaded_config : Config :=
  park (advance (handleDownload (state (world converted_config)))
          (world converted_config))
       (inflight converted_config).

(** The event loop after the conversion of the scenario during which
    [notes.txt] was chosen while the upload request was unanswered. *)
Definition disturbed_config : Config :=
  {| world := snd (run_amid scenario_network [[FileChosen (Some [notes_txt])]]
                     (handleUpload (state (world selected_config)))
                     (world selected_config));
     inflight := [] |}.

(** The page right after the click on the convert button, the upload
    request still unanswered. *)
Definition uploading_config : Config :=
  let c := park (advance (handleFileChange (Some [report_pdf])) (start initial_state)) [] in
  park (advance (handleUpload (state (world c))) (world c)) (inflight c).

(** ** Single runs of a handler *)

(** Unfolds the answers of the network into the run. *)
Ltac settle :=
  repeat match goal with
  | net : Network |- _ => destruct net
  | r : Response _ |- _ => destruct r
  end; cbn in *; subst; cbn in *.

Lemma append_cancel (p a b : string) : p ++ a = p ++ b -> a = b.
Proof.
  induction p as [|c p IH]; cbn; intros H; [exact H|].
  injection H as H. auto.
Qed.

Lemma truthy_some (id : string) : truthy (Some id) = true <-> id <> "".
Proof.
  cbn. destruct (String.eqb_spec id ""); cbn; split; congruence.
Qed.

(** The [try] block is left by an exception exactly in the six ways listed
    by [raises]; otherwise it returns. *)
Lemma attempt_throws_iff (net : Network) (f : File) (w : World) (err : Thrown) :
  fst (run net (upload_attempt f) w) = Uncaught err <-> raises net err.
Proof.
  split.
  - destruct net as [up pr]. unfold upload_attempt. cbn.
    destruct up as [[ok1 st1 [d|e1]]|e1]; cbn.
    + destruct ok1; cbn.
      * destruct pr as [[ok2 st2 [d2|e2]]|e2]; cbn.
        -- destruct ok2; cbn; intros H; [discriminate|].
           injection H as <-.
           eapply process_status with (r' := mkResponse false st2 _);
             cbn; reflexivity.
        -- destruct ok2; cbn; intros H; injection H as <-.
           ++ eapply process_malformed; cbn; reflexivity.
           ++ eapply process_status with (r' := mkResponse false st2 _);
                cbn; reflexivity.
        -- intros H; injection H as <-.
           eapply process_rejected; cbn; reflexivity.
      * intros H; injection H as <-.
        eapply upload_status with (r := mkResponse false st1 _); reflexivity.
    + destruct ok1; cbn; intros H; injection H as <-.
      * eapply upload_malformed; cbn; reflexivity.
      * eapply upload_status with (r := mkResponse false st1 _); reflexivity.
    + intros H; injection H as <-. apply upload_rejected. reflexivity.
  - intros H. unfold upload_attempt. destruct H; settle; reflexivity.
Qed.

Lemma attempt_returns_iff (net : Network) (f : File) (w : World) :
  fst (run net (upload_attempt f) w) = Returned <->
  exists st1 d st2 d2,
    upload_pdf net = Resolved (mkResponse true st1 (Resolved d)) /\
    process_pdf net = Resolved (mkResponse true st2 (Resolved d2)).
Proof.
  split.
  - destruct net as [up pr]. unfold upload_attempt. cbn.
    destruct up as [[[] st1 [d|e1]]|e1]; cbn; try discriminate.
    destruct pr as [[[] st2 [d2|e2]]|e2]; cbn; try discriminate.
    intros _. exists st1, d, st2, d2. split; reflexivity.
  - intros (st1 & d & st2 & d2 & H1 & H2). unfold upload_attempt.
    settle. reflexivity.
Qed.

(** A submit either goes through both requests or is stopped by one of the
    exceptions of [raises]. *)
Lemma attempt_outcomes (net : Network) :
  (exists err, raises net err) \/
  (exists st1 d st2 d2,
    upload_pdf net = Resolved (mkResponse true st1 (Resolved d)) /\
    process_pdf net = Resolved (mkResponse true st2 (Resolved d2))).
Proof.
  pose (f := mkFile "" "" []).
  destruct (fst (run net (upload_attempt f) (start initial_state))) eqn:E.
  - right. eapply attempt_returns_iff. exact E.
  - left. exists err. eapply attempt_throws_iff. exact E.
Qed.

(** No exception leaves [handleUpload], whatever the network does. *)
Lemma handleUpload_returns (s : State) (net : Network) :
  fst (run net (handleUpload s) (start s)) = Returned.
Proof.
  unfold handleUpload. destruct (file s) as [f|]; [|reflexivity].
  destruct (attempt_outcomes net) as [[err Hr]|(st1 & d & st2 & d2 & H1 & H2)].
  - destruct Hr; settle; reflexivity.
  - settle. reflexivity.
Qed.

(** The buttons and the guards of their handlers agree: an enabled convert
    button means a file is selected and no flag is raised; a disabled
    download button means [handleDownload] would do nothing. *)
Lemma convert_enabled_iff (s : State) :
  convert_disabled s = false <->
  is_set (file s) = true /\ uploading s || processing s = false.
Proof.
  unfold convert_disabled.
  destruct (file s), (uploading s), (processing s); cbn; intuition congruence.
Qed.

Lemma download_disabled_inert (s : State) (net : Network) :
  download_disabled s = true ->
  run net (handleDownload s) (start s) = (Returned, start s).
Proof.
  unfold download_disabled, handleDownload. intros H.
  apply negb_true_iff in H.
  destruct (presentationId s) as [id|]; [|reflexivity].
  rewrite H. reflexivity.
Qed.

(** C2.  When the upload is answered with a non-success status,
    [handleUpload] issues the upload request and nothing else (no request
    to the process endpoint) and ends in the errored state with the
    message "Upload failed: " followed by the status text. *)
Theorem upload_failure_skips_processing
  (s : State) (f : File) (net : Network) (r : Response UploadData) :
  file s = Some f ->
  upload_pdf net = Resolved r ->
  ok r = false ->
  let s' := state_after net (handleUpload s) s in
  let l := effects_of net (handleUpload s) s in
  requests l = [upload_request f] /\
  (forall fileId, ~ In (process_request fileId) (requests l)) /\
  (forall req, In req (requests l) -> url req <> API_URL ++ "/process-pdf/") /\
  in_phase Errored s' = true /\
  error s' = Some ("Upload failed: " ++ statusText r).
Proof.
  intros Hf Hup Hok s' l. subst s' l.
  unfold state_after, effects_of, handleUpload. rewrite Hf.
  settle. repeat split; try reflexivity.
  - intros fileId [H|[]]. discriminate H.
  - intros req [<-|[]] H. cbn in H. apply append_cancel in H. discriminate H.
Qed.

(** C3, as the code has it.  When the upload succeeds and the process
    request is answered with a non-success status, the presentation
    identifier and the slides are the ones held before the run (unset if
    none was held), and the error message is "Processing failed: "
    followed by the status text. *)
Theorem process_failure_keeps_presentation
  (s : State) (f : File) (net : Network)
  (r : Response UploadData) (d : UploadData) (r' : Response ProcessData) :
  file s = Some f ->
  upload_pdf net = Resolved r -> ok r = true -> json_body r = Resolved d ->
  process_pdf net = Resolved r' -> ok r' = false ->
  let s' := state_after net (handleUpload s) s in
  presentationId s' = presentationId s /\
  slides s' = slides s /\
  (presentationId s = None -> presentationId s' = None) /\
  error s' = Some ("Processing failed: " ++ statusText r').
Proof.
  intros Hf Hup Hok Hd Hpr Hok' s'. subst s'.
  unfold state_after, handleUpload. rewrite Hf.
  settle. repeat split; auto.
Qed.

(** C4.  A file-selection event whose first file does not declare the
    type [application/pdf] sets the error message to "Please select a PDF
    file", leaves the selected file, the slides, the presentation
    identifier and both flags as they were, and sends no request. *)
Theorem select_non_pdf_only_sets_error
  (s : State) (selected : File) (others : list File) (net : Network) :
  file_type selected <> "application/pdf" ->
  let p := handleFileChange (Some (selected :: others)) in
  let s' := state_after net p s in
  error s' = Some "Please select a PDF file" /\
  file s' = file s /\
  slides s' = slides s /\
  presentationId s' = presentationId s /\
  uploading s' = uploading s /\
  processing s' = processing s /\
  requests (effects_of net p s) = [] /\
  advance p (start s) = (snd (run net p (start s)), None).
Proof.
  intros Hty p s'. subst p s'. unfold state_after, effects_of, handleFileChange.
  destruct (String.eqb_spec (file_type selected) "application/pdf") as [E|_];
    [contradiction|].
  cbn. repeat split; reflexivity.
Qed.

(** C5.  With no file selected, [handleUpload] sets the error message to
    "Please select a file first" and returns; it sends no request and
    leaves every other state cell as it was. *)
Theorem submit_without_file_only_sets_error (s : State) (net : Network) :
  file s = None ->
  let s' := state_after net (handleUpload s) s in
  fst (run net (handleUpload s) (start s)) = Returned /\
  error s' = Some "Please select a file first" /\
  requests (effects_of net (handleUpload s) s) = [] /\
  effects_of net (handleUpload s) s =
    [Performed (setError (Some "Please select a file first"))] /\
  file s' = file s /\
  uploading s' = uploading s /\
  processing s' = processing s /\
  presentationId s' = presentationId s /\
  slides s' = slides s.
Proof.
  intros Hf s'. subst s'. unfold state_after, effects_of, handleUpload.
  rewrite Hf. cbn. rewrite Hf. repeat split; reflexivity.
Qed.

(** C6, as the code has it.  When the presentation identifier is [null]
    or the empty string, [handleDownload] opens nothing and changes no
    state cell; when a non-empty identifier [id] is held, it opens
    [API_URL/download/id] with target [_blank], once, and changes no state
    cell. *)
Theorem download_opens_nonempty_identifier (s : State) (net : Network) :
  (truthy (presentationId s) = false ->
     effects_of net (handleDownload s) s = [] /\
     state_after net (handleDownload s) s = s) /\
  (forall id, presentationId s = Some id -> id <> "" ->
     effects_of net (handleDownload s) s =
       [Performed (windowOpen (API_URL ++ "/download/" ++ id) "_blank")] /\
     state_after net (handleDownload s) s = s).
Proof.
  unfold state_after, effects_of, handleDownload. split.
  - intros Hn. destruct (presentationId s) as [id|]; [|split; reflexivity].
    rewrite Hn. split; reflexivity.
  - intros id Hid Hne. rewrite Hid.
    apply truthy_some in Hne. rewrite Hne. cbn. split; reflexivity.
Qed.

(** C7.  Whichever way the [try] block is left by an exception (a request
    rejected, a non-success status turned into a thrown [Error], a body
    [json()] rejects, for either request), [handleUpload] itself returns:
    the exception is caught, the error message becomes its [message] when
    it is an [Error] and "An unknown error occurred" otherwise, and both
    flags are down. *)
Theorem submit_catches_every_exception
  (s : State) (f : File) (net : Network) (err : Thrown) :
  file s = Some f ->
  raises net err ->
  let s' := state_after net (handleUpload s) s in
  fst (run net (upload_attempt f) (start s)) = Uncaught err /\
  fst (run net (handleUpload s) (start s)) = Returned /\
  error s' = Some match err with
                  | ErrorObject message => message
                  | OtherValue => "An unknown error occurred"
                  end /\
  uploading s' = false /\
  processing s' = false.
Proof.
  intros Hf Hr s'. subst s'. split; [apply attempt_throws_iff; exact Hr|].
  unfold state_after, handleUpload. rewrite Hf.
  destruct Hr; settle; repeat split; reflexivity.
Qed.

(** C9.  A file-selection event whose first file declares the type
    [application/pdf] stores that file and sets the error message to
    [null]; the other state cells keep their values. *)
Theorem select_pdf_stores_file_and_clears_error
  (s : State) (selected : File) (others : list File) (net : Network) :
  file_type selected = "application/pdf" ->
  let s' := state_after net (handleFileChange (Some (selected :: others))) s in
  file s' = Some selected /\
  error s' = None /\
  uploading s' = uploading s /\
  processing s' = processing s /\
  presentationId s' = presentationId s /\
  slides s' = slides s.
Proof.
  intros Hty s'. subst s'. unfold state_after, handleFileChange.
  rewrite Hty. cbn. repeat split; reflexivity.
Qed.

(** C10.  A run of [handleUpload] that is stopped by an exception, in the
    upload step or in the process step, leaves the stored slides and the
    stored presentation identifier as they were; [handleDownload] then
    does what it did before the run, and with a non-empty identifier [p]
    from an earlier conversion it still opens [API_URL/download/p]. *)
Theorem failed_submit_keeps_previous_result
  (s : State) (f : File) (net net' : Network) (err : Thrown) :
  file s = Some f ->
  raises net err ->
  let s' := state_after net (handleUpload s) s in
  presentationId s' = presentationId s /\
  slides s' = slides s /\
  handleDownload s' = handleDownload s /\
  (forall p, presentationId s = Some p -> p <> "" ->
     effects_of net' (handleDownload s') s' =
       [Performed (windowOpen (API_URL ++ "/download/" ++ p) "_blank")]).
Proof.
  intros Hf Hr s'.
  assert (Hp : presentationId s' = presentationId s /\ slides s' = slides s).
  { subst s'. unfold state_after, handleUpload. rewrite Hf.
    destruct Hr; settle; split; reflexivity. }
  destruct Hp as [Hp Hs]. repeat split; auto.
  - unfold handleDownload. rewrite Hp. reflexivity.
  - intros p Hid Hne. unfold effects_of, handleDownload. rewrite Hp, Hid.
    apply truthy_some in Hne. rewrite Hne. reflexivity.
Qed.

(** ** The event loop: one conversion at a time *)

Lemma advance_flags_settle (p : Prog unit) : forall w,
  flags_settle p (uploading (state w)) (processing (state w)) ->
  single_flight (park (advance p w) []).
Proof.
  induction p as [r|err|a k IH|e req k IH|e resp k IH]; intros w H;
    cbn in *; try exact H.
  apply IH. destruct a; exact H.
Qed.

Lemma handleUpload_flags_settle (s : State) :
  flags_settle (handleUpload s) false false.
Proof.
  unfold handleUpload. destruct (file s) as [f|]; cbn; [|auto].
  split; [reflexivity|].
  intros [[[] st1 body]|err]; cbn; auto.
  split; [reflexivity|].
  intros [d|err]; cbn; auto.
  split; [reflexivity|].
  intros [[[] st2 body2]|err]; cbn; auto.
  split; [reflexivity|].
  intros [d2|err]; cbn; auto.
Qed.

(** The two synchronous handlers finish at once and leave the flags. *)
Lemma handleFileChange_sync (files : option (list File)) (w : World) :
  exists w', advance (handleFileChange files) w = (w', None) /\
             uploading (state w') = uploading (state w) /\
             processing (state w') = processing (state w).
Proof.
  unfold handleFileChange. destruct files as [[|sel rest]|]; cbn; eauto.
  destruct (file_type sel =? "application/pdf"); cbn; eauto.
Qed.

Lemma handleDownload_sync (s : State) (w : World) :
  exists w', advance (handleDownload s) w = (w', None) /\
             uploading (state w') = uploading (state w) /\
             processing (state w') = processing (state w).
Proof.
  unfold handleDownload. destruct (presentationId s) as [id|]; cbn; eauto.
  destruct (id =? ""); cbn; eauto.
Qed.

Lemma single_flight_sync (c : Config) (w' : World) :
  single_flight c ->
  uploading (state w') = uploading (state (world c)) ->
  processing (state w') = processing (state (world c)) ->
  single_flight (park (w', None) (inflight c)).
Proof.
  unfold single_flight, park. cbn. rewrite app_nil_r.
  intros H -> ->. exact H.
Qed.

Lemma single_flight_idle (c : Config) :
  single_flight c ->
  uploading (state (world c)) || processing (state (world c)) = false ->
  inflight c = [].
Proof.
  unfold single_flight. intros H Hfl. apply orb_false_elim in Hfl as [Hu Hp].
  rewrite Hu, Hp in H.
  destruct (inflight c) as [|t [|t' rest]]; [reflexivity| |contradiction].
  destruct t; destruct H as [H _]; discriminate H.
Qed.

Lemma single_flight_alone (w : World) (before after : list Suspended) (t : Suspended) :
  single_flight {| world := w; inflight := before ++ t :: after |} ->
  before = [] /\ after = [] /\
  parked_well t (uploading (state w)) (processing (state w)).
Proof.
  unfold single_flight. cbn.
  destruct before as [|b [|b' before]]; cbn.
  - destruct after; [auto|contradiction].
  - destruct after; contradiction.
  - contradiction.
Qed.

Lemma step_single_flight (c c' : Config) :
  single_flight c -> step c c' -> single_flight c'.
Proof.
  intros Inv Hstep. destruct Hstep.
  - destruct (handleFileChange_sync files (world c)) as (w' & -> & Hu & Hp).
    apply single_flight_sync; assumption.
  - rewrite (single_flight_idle c Inv H).
    apply orb_false_elim in H as [Hu Hp].
    apply advance_flags_settle. rewrite Hu, Hp.
    apply handleUpload_flags_settle.
  - destruct (handleDownload_sync (state (world c)) (world c))
      as (w' & -> & Hu & Hp).
    apply single_flight_sync; assumption.
  - apply single_flight_alone in Inv as (-> & -> & _ & Hk).
    apply advance_flags_settle, Hk.
  - apply single_flight_alone in Inv as (-> & -> & _ & Hk).
    apply advance_flags_settle, Hk.
Qed.

Lemma reachable_single_flight (c : Config) : reachable c -> single_flight c.
Proof.
  induction 1 as [|c c' _ IH Hstep].
  - split; reflexivity.
  - exact (step_single_flight c c' IH Hstep).
Qed.

Lemma single_flight_exclusive (c : Config) :
  single_flight c ->
  uploading (state (world c)) && processing (state (world c)) = false.
Proof.
  unfold single_flight.
  destruct (inflight c) as [|t [|t' rest]]; [| |contradiction].
  - intros [-> ->]. reflexivity.
  - destruct t; intros [H _];
      destruct (uploading (state (world c))), (processing (state (world c)));
      cbn in *; congruence.
Qed.

(** With the two flags never raised together, the state cells single out
    one session state. *)
Lemma exclusive_flags_one_phase (s : State) :
  uploading s && processing s = false ->
  exists! ph, in_phase ph s = true.
Proof.
  intros H.
  destruct (uploading s) eqn:Hu, (processing s) eqn:Hp; try discriminate H.
  - exists Uploading. split; [exact Hu|].
    intros [] H'; cbn in H'; rewrite ?Hu, ?Hp in H'; cbn in H';
      congruence.
  - exists Processing. split; [exact Hp|].
    intros [] H'; cbn in H'; rewrite ?Hu, ?Hp in H'; cbn in H';
      congruence.
  - destruct (error s) as [msg|] eqn:He.
    + exists Errored. split; [cbn; rewrite Hu, Hp, He; reflexivity|].
      intros [] H'; cbn in H'; rewrite ?Hu, ?Hp, ?He in H'; cbn in H';
        congruence.
    + destruct (presentationId s) as [id|] eqn:Hid.
      * exists Ready. split; [cbn; rewrite Hu, Hp, He, Hid; reflexivity|].
        intros [] H'; cbn in H'; rewrite ?Hu, ?Hp, ?He, ?Hid in H';
          cbn in H'; congruence.
      * exists Idle. split; [cbn; rewrite Hu, Hp, He, Hid; reflexivity|].
        intros [] H'; cbn in H'; rewrite ?Hu, ?Hp, ?He, ?Hid in H';
          cbn in H'; congruence.
Qed.

(** A run of [handleUpload] from a configuration with nothing in flight is
    an execution of the event loop: the click, then the promises settling
    as the network answers. *)
Lemma run_is_reachable (net : Network) (p : Prog unit) : forall w,
  reachable (park (advance p w) []) ->
  reachable {| world := snd (run net p w); inflight := [] |}.
Proof.
  induction p as [r|err|a k IH|e req k IH|e resp k IH]; intros w H; cbn in *.
  - exact H.
  - exact H.
  - apply IH, H.
  - apply IH. eapply reachable_step; [exact H|].
    exact (step_fetch_settled (send req w) [] e k [] (respond net e)).
  - apply IH. eapply reachable_step; [exact H|].
    exact (step_json_settled w [] e resp k []).
Qed.

Lemma submit_is_reachable (net : Network) (w : World) :
  reachable {| world := w; inflight := [] |} ->
  reachable {| world := snd (run net (handleUpload (state w)) w); inflight := [] |}.
Proof.
  intros H. apply run_is_reachable.
  pose proof (reachable_single_flight _ H) as [Hu Hp]. cbn in Hu, Hp.
  eapply reachable_step; [exact H|].
  apply (step_convert {| world := w; inflight := [] |}).
  cbn. rewrite Hu, Hp. reflexivity.
Qed.

(** A click on the enabled convert button is a turn of the event loop. *)
Lemma convert_click_steps (c : Config) :
  convert_disabled (state (world c)) = false ->
  step c (park (advance (handleUpload (state (world c))) (world c)) (inflight c)).
Proof.
  intros H. apply step_convert. apply convert_enabled_iff in H. apply H.
Qed.

(** C8.  In every configuration the page can reach through file
    selections, clicks on the two buttons and requests settling in any
    way, the state cells are in exactly one of the five session states,
    and the uploading and processing flags are not both raised. *)
Theorem reachable_in_exactly_one_phase (c : Config) :
  reachable c ->
  (exists! ph, in_phase ph (state (world c)) = true) /\
  uploading (state (world c)) && processing (state (world c)) = false.
Proof.
  intros H. apply reachable_single_flight, single_flight_exclusive in H.
  split; [apply exclusive_flags_one_phase|]; exact H.
Qed.

(** ** Further properties of single runs *)


(** X1.  Whatever the network does, a run of [handleUpload] with a file
    selected sends the upload of that file first; it sends a process
    request exactly when the upload was answered with a success status
    and a body that parses, and then with the file name of that body,
    whether or not the process request itself succeeds.  Nothing else is
    sent. *)
Theorem submit_sends_upload_then_its_identifier
  (s : State) (f : File) (net : Network) :
  file s = Some f ->
  requests (effects_of net (handleUpload s) s) =
    upload_request f ::
    match upload_pdf net with
    | Resolved r =>
        if ok r then
          match json_body r with
          | Resolved d => [process_request (upload_filename d)]
          | Rejected _ => []
          end
        else []
    | Rejected _ => []
    end.
Proof.
  intros Hf. unfold effects_of, handleUpload. rewrite Hf.
  destruct net as [[[[] st1 [d|e1]]|e1] [[[] st2 [d2|e2]]|e2]]; reflexivity.
Qed.

(** X4.  The download button and its handler agree: the button is
    enabled exactly when a click opens the download of the stored
    identifier, once and in a new browsing context, and disabled exactly
    when a call of [handleDownload] would do nothing. *)
Theorem download_button_matches_handler (s : State) (net : Network) :
  (download_button_disabled (render s) = false <->
   exists id, presentationId s = Some id /\
              effects_of net (handleDownload s) s =
                [Performed (windowOpen (download_url id) "_blank")]) /\
  (download_button_disabled (render s) = true <->
   effects_of net (handleDownload s) s = []).
Proof.
  unfold render, download_disabled, effects_of, handleDownload. cbn.
  destruct (presentationId s) as [id|]; cbn.
  - destruct (id =? ""); cbn; split; split; try discriminate; try reflexivity.
    + intros (id' & _ & H). discriminate H.
    + intros _. exists id. split; reflexivity.
  - split; split; try discriminate; try reflexivity.
    intros (id' & H & _). discriminate H.
Qed.

(** X5.  A click on the enabled convert button never meets the guard of
    [handleUpload]: a file is selected, and the run starts by raising the
    uploading flag, clearing the error and sending the upload of that
    file. *)
Theorem enabled_convert_uploads_selected_file (s : State) (net : Network) :
  convert_button_disabled (render s) = false ->
  exists f, file s = Some f /\
            firstn 3 (effects_of net (handleUpload s) s) =
              [Performed (setUploading true); Performed (setError None);
               Requested (upload_request f)].
Proof.
  intros H. apply convert_enabled_iff in H as [Hf _].
  destruct (file s) as [f|] eqn:E; [|discriminate Hf].
  exists f. split; [reflexivity|].
  unfold effects_of, handleUpload. rewrite E.
  destruct net as [[[[] st1 [d|e1]]|e1] [[[] st2 [d2|e2]]|e2]]; reflexivity.
Qed.
(** ** The rendered page *)

Lemma indexed_from_keys {A : Type} (l : list A) : forall i,
  map fst (indexed_from i l) = seq i (List.length l).
Proof.
  induction l as [|x rest IH]; intros i; cbn; [reflexivity|].
  rewrite IH. reflexivity.
Qed.

Lemma indexed_from_values {A : Type} (l : list A) : forall i,
  map snd (indexed_from i l) = l.
Proof.
  induction l as [|x rest IH]; intros i; cbn; [reflexivity|].
  rewrite IH. reflexivity.
Qed.

(** X6.  In every state the preview card shows at most one of the
    progress panel, the slide preview and the placeholder; when it shows
    none of them the error alert is shown, so the page never comes up
    without either.  The spinner of the convert button is shown exactly
    with the progress panel, and the button then does not read "Convert
    to Presentation". *)
Theorem render_shows_one_panel_or_alert (s : State) :
  let v := render s in
  is_set (progress_panel v) && is_set (preview_panel v) = false /\
  is_set (progress_panel v) && placeholder_panel v = false /\
  is_set (preview_panel v) && placeholder_panel v = false /\
  (is_set (progress_panel v) = false -> is_set (preview_panel v) = false ->
   placeholder_panel v = false -> is_set (error_alert v) = true) /\
  convert_spinner v = is_set (progress_panel v) /\
  (convert_spinner v = true <-> convert_label v <> "Convert to Presentation").
Proof.
  unfold render. cbn.
  destruct (uploading s), (processing s); cbn;
    try (repeat split; try reflexivity; try discriminate;
         intros H; exfalso; apply H; reflexivity).
  destruct (slides s) as [|sd rest]; cbn.
  - destruct (error s) as [msg|]; cbn.
    + destruct (msg =? ""); cbn; repeat split; try reflexivity;
        try discriminate; intros H; exfalso; apply H; reflexivity.
    + repeat split; try reflexivity; try discriminate.
      intros H; exfalso; apply H; reflexivity.
  - repeat split; try reflexivity; try discriminate.
    intros H; exfalso; apply H; reflexivity.
Qed.

Lemma slide_views_spec (l : list Slide) : forall i,
  let pv := map slide_view (indexed_from i l) in
  map heading pv = map title l /\
  map (fun sv => map snd (points sv)) pv = map content l /\
  map slide_key pv = seq i (List.length l) /\
  Forall (fun sv => map fst (points sv) = seq 0 (List.length (points sv))) pv.
Proof.
  induction l as [|x l IH]; intros i; cbn.
  - repeat split. constructor.
  - destruct (IH (S i)) as (Hh & Hp & Hk & Hi). cbn in Hh, Hp, Hk, Hi.
    rewrite Hh, Hp, Hk, indexed_from_values. repeat split.
    constructor; [|exact Hi].
    cbn. rewrite indexed_from_keys. f_equal.
    rewrite <- (length_map fst), indexed_from_keys, length_seq. reflexivity.
Qed.

(** X7.  When the slide preview is shown it lists the stored slides, all
    of them and in their order: the headings are the titles, the items of
    each slide are its bullets, and the keys of the slides and of the
    items of each slide count up from 0.  It is shown only with both
    flags down and at least one slide. *)
Theorem preview_lists_slides_in_order (s : State) (pv : list SlideView) :
  preview_panel (render s) = Some pv ->
  map heading pv = map title (slides s) /\
  map (fun sv => map snd (points sv)) pv = map content (slides s) /\
  map slide_key pv = seq 0 (List.length (slides s)) /\
  Forall (fun sv => map fst (points sv) = seq 0 (List.length (points sv))) pv /\
  pv <> [] /\
  uploading s = false /\ processing s = false.
Proof.
  unfold render. cbn [preview_panel].
  destruct (uploading s), (processing s); cbn [negb andb]; try discriminate.
  destruct (Nat.ltb 0 (List.length (slides s))) eqn:E; [|discriminate].
  intros H. injection H as <-.
  destruct (slide_views_spec (slides s) 0) as (Hh & Hp & Hk & Hi).
  repeat split; try assumption.
  destruct (slides s); [discriminate E|discriminate].
Qed.

(** X8.  The base address of the server is never empty: an unset or
    empty [VITE_API_URL] gives [http://localhost:8000], any other value
    is used as it is.  Download links of different identifiers differ. *)
Theorem api_url_defaults_and_links_differ :
  API_URL <> "" /\
  (truthy VITE_API_URL = false -> API_URL = "http://localhost:8000") /\
  (forall u, VITE_API_URL = Some u -> u <> "" -> API_URL = u) /\
  (forall id1 id2, download_url id1 = download_url id2 -> id1 = id2).
Proof.
  unfold API_URL, download_url. repeat split.
  - destruct VITE_API_URL as [u|]; [|discriminate].
    destruct (String.eqb_spec u ""); [discriminate|assumption].
  - destruct VITE_API_URL as [u|]; [|reflexivity]. cbn.
    destruct (u =? ""); [reflexivity|discriminate].
  - intros u -> Hu. apply String.eqb_neq in Hu. rewrite Hu. reflexivity.
  - intros id1 id2 H. apply append_cancel in H. apply append_cancel in H. exact H.
Qed.
(** ** Invariants of the event loop, proved *)

Lemma advance_parked_keeps (J : World -> Prop) (p : Prog unit) : forall w,
  keeps_on J p ->
  match snd (advance p w) with
  | Some t => parked_keeps J t
  | None => True
  end.
Proof.
  induction p as [r|err|a k IH|e req k IH|e resp k IH]; intros w H.
  - exact I.
  - exact I.
  - exact (IH (execute a w) H).
  - exact H.
  - exact H.
Qed.

Lemma handleFileChange_keeps_on (J : World -> Prop) (files : option (list File)) :
  keeps_on J (handleFileChange files).
Proof.
  unfold handleFileChange. destruct files as [[|sel rest]|]; cbn; auto.
  destruct (file_type sel =? "application/pdf"); cbn; auto.
Qed.

Lemma handleDownload_keeps_on (J : World -> Prop) (s : State) :
  keeps_on J (handleDownload s).
Proof.
  unfold handleDownload. destruct (presentationId s) as [id|]; cbn; auto.
  destruct (id =? ""); cbn; auto.
Qed.

(** Whatever is parked in a reachable configuration is a stretch of
    [handleUpload]. *)
Lemma reachable_parked_keeps (J : World -> Prop) :
  (forall s, keeps_on J (handleUpload s)) ->
  forall c, reachable c -> Forall (parked_keeps J) (inflight c).
Proof.
  intros Hon c Hc.
  assert (Hpark : forall p w others,
            keeps_on J p -> Forall (parked_keeps J) others ->
            Forall (parked_keeps J) (inflight (park (advance p w) others))).
  { intros p w others Hk Ho. unfold park. cbn.
    apply Forall_app. split; [exact Ho|].
    pose proof (advance_parked_keeps J p w Hk) as Ht.
    destruct (snd (advance p w)); constructor; [exact Ht|constructor]. }
  induction Hc as [|c c' _ Hin Hstep]; [constructor|].
  destruct Hstep.
  - apply Hpark; [apply handleFileChange_keeps_on|exact Hin].
  - apply Hpark; [apply Hon|exact Hin].
  - apply Hpark; [apply handleDownload_keeps_on|exact Hin].
  - cbn in Hin. apply Forall_app in Hin as [Hb Ht].
    inversion Ht as [|t ts Hk Ha]; subst. cbn in Hk.
    apply Hpark; [apply Hk|apply Forall_app; split; assumption].
  - cbn in Hin. apply Forall_app in Hin as [Hb Ht].
    inversion Ht as [|t ts Hk Ha]; subst. cbn in Hk.
    apply Hpark; [apply Hk|apply Forall_app; split; assumption].
Qed.

(** One turn of the event loop keeps a property of the world that each
    handler keeps, from its start to its first [await] and from each
    [await] to the next. *)
Lemma step_keeps (J : World -> Prop) (c c' : Config) :
  (forall files, keeps J (handleFileChange files)) ->
  (forall w, J w -> J (fst (advance (handleDownload (state w)) w))) ->
  (forall w, J w -> J (fst (advance (handleUpload (state w)) w))) ->
  Forall (parked_keeps J) (inflight c) ->
  step c c' ->
  J (world c) -> J (world c').
Proof.
  intros Hfc Hdl Hup Hin Hstep Hw. destruct Hstep; cbn.
  - apply Hfc, Hw.
  - apply Hup, Hw.
  - apply Hdl, Hw.
  - cbn in Hw, Hin. apply Forall_app in Hin as [_ Ht].
    inversion Ht as [|t ts Hk _]; subst. apply (Hk r), Hw.
  - cbn in Hw, Hin. apply Forall_app in Hin as [_ Ht].
    inversion Ht as [|t ts Hk _]; subst. apply (Hk (json_body resp)), Hw.
Qed.

(** Such a property holds in every reachable configuration once it holds
    when the page has loaded. *)
Lemma reachable_keeps (J : World -> Prop) :
  J (start initial_state) ->
  (forall files, keeps J (handleFileChange files)) ->
  (forall w, J w -> J (fst (advance (handleDownload (state w)) w))) ->
  (forall w, J w -> J (fst (advance (handleUpload (state w)) w))) ->
  (forall s, keeps_on J (handleUpload s)) ->
  forall c, reachable c -> J (world c).
Proof.
  intros H0 Hfc Hdl Hup Hon c Hc.
  induction Hc as [|c c' Hc IH Hstep]; [exact H0|].
  exact (step_keeps J c c' Hfc Hdl Hup (reachable_parked_keeps J Hon c Hc) Hstep IH).
Qed.

Lemma uploaded_files_app (l l' : list Effect) :
  uploaded_files (l ++ l') = (uploaded_files l ++ uploaded_files l')%list.
Proof. apply flat_map_app. Qed.

Lemma upload_forms_app (l l' : list Effect) :
  upload_forms (l ++ l') = (upload_forms l ++ upload_forms l')%list.
Proof. apply flat_map_app. Qed.

Lemma processed_ids_app (l l' : list Effect) :
  processed_ids (l ++ l') = (processed_ids l ++ processed_ids l')%list.
Proof. apply flat_map_app. Qed.

Ltac tidy_log :=
  cbn; rewrite ?uploaded_files_app, ?upload_forms_app, ?processed_ids_app; cbn;
  rewrite ?app_nil_r.

(** Walks through the [await]s of a handler, settling each promise in
    every way, and hands each stretch between two of them to [fin]. *)
Ltac walk fin :=
  cbn;
  repeat match goal with
  | |- True => exact Logic.I
  | |- _ /\ _ => split
  | |- forall r : Awaited _, _ =>
      let r := fresh "r" in intros r; destruct r as [?|?]; cbn
  | x : Response _ |- _ => destruct x as [[] ? ?]; cbn
  | |- keeps _ _ =>
      let w := fresh "w" in let Hw := fresh "Hw" in
      unfold keeps; intros w Hw; fin w Hw
  end.

Ltac only_pdfs_step w Hw :=
  unfold only_pdfs in *; tidy_log; try exact Hw.

Lemma handleUpload_keeps_on_only_pdfs (s : State) :
  keeps_on only_pdfs (handleUpload s).
Proof.
  unfold handleUpload. destruct (file s) as [f|]; walk only_pdfs_step.
Qed.

Lemma reachable_only_pdfs (c : Config) : reachable c -> only_pdfs (world c).
Proof.
  intros Hc. apply (reachable_keeps only_pdfs); try exact Hc.
  - split; [discriminate|constructor].
  - intros files w Hw. unfold handleFileChange.
    destruct files as [[|sel rest]|]; try exact Hw.
    destruct (String.eqb_spec (file_type sel) "application/pdf") as [E|E];
      unfold only_pdfs in *; tidy_log; [|exact Hw].
    split; [|apply Hw]. intros f [= <-]. exact E.
  - intros w Hw. unfold handleDownload.
    destruct (presentationId (state w)) as [id|]; [|exact Hw].
    destruct (truthy (Some id)); [|exact Hw].
    unfold only_pdfs in *; tidy_log. exact Hw.
  - intros w Hw. unfold handleUpload.
    destruct Hw as [Hf Hu].
    destruct (file (state w)) as [f|] eqn:E;
      unfold only_pdfs; tidy_log; rewrite ?E.
    + split; [exact Hf|].
      apply Forall_app. split; [exact Hu|].
      constructor; [|constructor]. apply Hf. reflexivity.
    + split; [exact Hf|exact Hu].
  - apply handleUpload_keeps_on_only_pdfs.
Qed.

(** X9.  In every configuration the page can reach, the selected file,
    if there is one, declares the type [application/pdf], and so does
    every file that was ever sent to the upload endpoint. *)
Theorem only_pdfs_are_selected_and_uploaded (c : Config) :
  reachable c ->
  (forall f, file (state (world c)) = Some f -> file_type f = "application/pdf") /\
  (forall f, In f (uploaded_files (log (world c))) -> file_type f = "application/pdf").
Proof.
  intros Hc. destruct (reachable_only_pdfs c Hc) as [Hf Hu].
  split; [exact Hf|]. intros f Hin.
  rewrite Forall_forall in Hu. exact (Hu f Hin).
Qed.

(** X11.  In every configuration the page can reach, at most one
    conversion is under way; the spinner and the progress panel are
    shown exactly while one is, and the convert button is disabled for
    that time. *)
Theorem spinner_tracks_the_conversion (c : Config) :
  reachable c ->
  List.length (inflight c) <= 1 /\
  (inflight c = [] <-> convert_spinner (render (state (world c))) = false) /\
  (inflight c = [] <-> progress_panel (render (state (world c))) = None) /\
  (inflight c <> [] -> convert_button_disabled (render (state (world c))) = true).
Proof.
  intros Hc. apply reachable_single_flight in Hc.
  unfold single_flight in Hc. unfold render, convert_disabled. cbn.
  destruct (inflight c) as [|t [|t' rest]]; [| |contradiction].
  - destruct Hc as [-> ->]. cbn. repeat split; try reflexivity; try lia.
    intros H. elim H. reflexivity.
  - assert (Hx : xorb (uploading (state (world c))) (processing (state (world c))) = true)
      by (destruct t; apply Hc).
    destruct (uploading (state (world c))), (processing (state (world c)));
      try discriminate Hx; cbn; repeat split; try discriminate; try lia;
      try (intros _; apply orb_true_r).
Qed.

Lemma sync_handlers_send_nothing (w : World) :
  (forall files,
     let w' := fst (advance (handleFileChange files) w) in
     upload_forms (log w') = upload_forms (log w) /\
     processed_ids (log w') = processed_ids (log w)) /\
  (let w' := fst (advance (handleDownload (state w)) w) in
   upload_forms (log w') = upload_forms (log w) /\
   processed_ids (log w') = processed_ids (log w)).
Proof.
  split.
  - intros files. unfold handleFileChange.
    destruct files as [[|sel rest]|]; try (split; reflexivity).
    destruct (file_type sel =? "application/pdf"); tidy_log; split; reflexivity.
  - unfold handleDownload. destruct (presentationId (state w)) as [id|];
      [|split; reflexivity].
    destruct (truthy (Some id)); tidy_log; split; reflexivity.
Qed.

Lemma advance_owes (p : Prog unit) : forall w credit,
  owes p credit ->
  List.length (processed_ids (log w)) + (if credit then 1 else 0)
    <= List.length (upload_forms (log w)) ->
  uploads_cover_processing (park (advance p w) []).
Proof.
  induction p as [r|err|a k IH|e req k IH|e resp k IH]; intros w credit Ho Hle.
  - unfold uploads_cover_processing. cbn. lia.
  - unfold uploads_cover_processing. cbn. lia.
  - cbn. apply (IH (execute a w) credit Ho).
    unfold execute. tidy_log. exact Hle.
  - unfold uploads_cover_processing. cbn in *.
    destruct req as [u m h [fields|fileId]]; cbn in Ho.
    + exists true. split; [exact Ho|].
      tidy_log. rewrite length_app. cbn. destruct credit; lia.
    + destruct Ho as [-> Ho]. exists false. split; [exact Ho|].
      tidy_log. rewrite length_app. cbn. cbn in Hle. lia.
  - unfold uploads_cover_processing. cbn.
    exists credit. split; [exact Ho|exact Hle].
Qed.

Lemma handleUpload_owes (s : State) : owes (handleUpload s) false.
Proof.
  unfold handleUpload. destruct (file s) as [f|]; cbn; [|exact Logic.I].
  repeat match goal with
  | |- True => exact Logic.I
  | |- _ /\ _ => split; [reflexivity|]
  | |- forall r : Awaited _, _ =>
      let r := fresh "r" in intros r; destruct r as [?|?]; cbn
  | x : Response _ |- _ => destruct x as [[] ? ?]; cbn
  end.
Qed.

Lemma reachable_uploads_cover_processing (c : Config) :
  reachable c -> uploads_cover_processing c.
Proof.
  induction 1 as [|c c' Hc IH Hstep].
  - unfold uploads_cover_processing. cbn. lia.
  - pose proof (reachable_single_flight c Hc) as Hsf.
    destruct Hstep.
    + destruct (handleFileChange_sync files (world c)) as (w' & E & _ & _).
      destruct (proj1 (sync_handlers_send_nothing (world c)) files) as [Hu Hp].
      rewrite E in *. unfold uploads_cover_processing, park in *. cbn in *.
      rewrite app_nil_r, Hu, Hp. exact IH.
    + unfold uploads_cover_processing in IH.
      rewrite (single_flight_idle c Hsf H) in *.
      apply (advance_owes _ _ false (handleUpload_owes _)).
      cbn. lia.
    + destruct (handleDownload_sync (state (world c)) (world c)) as (w' & E & _ & _).
      destruct (proj2 (sync_handlers_send_nothing (world c))) as [Hu Hp].
      rewrite E in *. unfold uploads_cover_processing, park in *. cbn in *.
      rewrite app_nil_r, Hu, Hp. exact IH.
    + apply single_flight_alone in Hsf as (-> & -> & _).
      unfold uploads_cover_processing in IH. cbn in IH.
      destruct IH as (credit & Ho & Hle).
      exact (advance_owes (k r) w credit (Ho r) Hle).
    + apply single_flight_alone in Hsf as (-> & -> & _).
      unfold uploads_cover_processing in IH. cbn in IH.
      destruct IH as (credit & Ho & Hle).
      exact (advance_owes (k (json_body resp)) w credit (Ho (json_body resp)) Hle).
Qed.

(** X12.  In every configuration the page can reach, the process
    endpoint was asked at most as often as the upload endpoint: no
    process request goes out that an upload has not gone before, however
    the user's actions and the network's answers interleave. *)
Theorem processing_never_outruns_uploads (c : Config) :
  reachable c ->
  List.length (processed_ids (log (world c)))
    <= List.length (upload_forms (log (world c))).
Proof.
  intros Hc. apply reachable_uploads_cover_processing in Hc.
  unfold uploads_cover_processing in Hc.
  destruct (inflight c) as [|t [|t' rest]]; [exact Hc| |contradiction].
  destruct Hc as (credit & _ & Hle). lia.
Qed.

Lemma requests_app (l l' : list Effect) :
  requests (l ++ l') = (requests l ++ requests l')%list.
Proof. apply flat_map_app. Qed.

Lemma opened_app (l l' : list Effect) :
  opened (l ++ l') = (opened l ++ opened l')%list.
Proof. apply flat_map_app. Qed.

Lemma stored_presentations_app (l l' : list Effect) :
  stored_presentations (l ++ l') =
  (stored_presentations l ++ stored_presentations l')%list.
Proof. apply flat_map_app. Qed.

Ltac interface_step w Hw :=
  unfold only_interface_requests in *; cbn; rewrite ?requests_app; cbn;
  rewrite ?app_nil_r; try exact Hw;
  try (apply Forall_app; split; [exact Hw|];
       constructor; [|constructor];
       solve [left; eexists; reflexivity | right; eexists; reflexivity]).

Lemma reachable_only_interface_requests (c : Config) :
  reachable c -> only_interface_requests (world c).
Proof.
  intros Hc. apply (reachable_keeps only_interface_requests); try exact Hc.
  - constructor.
  - intros files w Hw. unfold handleFileChange.
    destruct files as [[|sel rest]|]; try exact Hw.
    destruct (file_type sel =? "application/pdf"); interface_step w Hw.
  - intros w Hw. unfold handleDownload.
    destruct (presentationId (state w)) as [id|]; [|exact Hw].
    destruct (truthy (Some id)); interface_step w Hw.
  - intros w Hw. unfold handleUpload.
    destruct (file (state w)) as [f|]; interface_step w Hw.
  - intros s. unfold handleUpload. destruct (file s) as [f|]; walk interface_step.
Qed.

(** X13.  Every request the page has sent, in any configuration it can
    reach, is one of the two of the server's interface: a [POST] to
    [API_URL/upload-pdf/] whose form has the single field [file], without
    headers of its own, or a [POST] to [API_URL/process-pdf/] with the
    JSON content type and a file name as body. *)
Theorem only_interface_requests_are_sent (c : Config) (req : Request) :
  reachable c ->
  In req (requests (log (world c))) ->
  method req = "POST" /\
  ((exists f, url req = API_URL ++ "/upload-pdf/" /\ headers req = [] /\
              body req = FormData [("file", f)]) \/
   (exists fileId, url req = API_URL ++ "/process-pdf/" /\
                   headers req = [("Content-Type", "application/json")] /\
                   body req = JsonFilename fileId)).
Proof.
  intros Hc Hin. pose proof (reachable_only_interface_requests c Hc) as H.
  unfold only_interface_requests in H. rewrite Forall_forall in H.
  destruct (H req Hin) as [[f ->]|[fileId ->]].
  - split; [reflexivity|]. left. exists f. repeat split.
  - split; [reflexivity|]. right. exists fileId. repeat split.
Qed.

Lemma download_of_stored_grows (l l' : list Effect) (nav : string * string) :
  download_of_stored l nav -> download_of_stored (l ++ l') nav.
Proof.
  intros (Ht & id & Hne & Hu & Hin). split; [exact Ht|].
  exists id. repeat split; try assumption.
  rewrite stored_presentations_app. apply in_or_app. left. exact Hin.
Qed.

(** A stretch that stores no identifier and opens no window keeps
    [only_stored_downloads], and so does one that stores an identifier
    last of all its identifier writes and opens no window. *)
Lemma only_stored_downloads_extend (w : World) (s' : State) (l' : list Effect) :
  only_stored_downloads w ->
  opened l' = [] ->
  (presentationId s' = presentationId (state w) \/
   In (presentationId s') (stored_presentations l')) ->
  only_stored_downloads {| state := s'; log := log w ++ l' |}.
Proof.
  intros [Hid Hop] Ho Hs. split; cbn.
  - intros id E. rewrite stored_presentations_app. apply in_or_app.
    destruct Hs as [Hs|Hs].
    + left. apply Hid. congruence.
    + right. rewrite <- E. exact Hs.
  - rewrite opened_app, Ho, app_nil_r.
    eapply Forall_impl; [|exact Hop].
    intros nav. apply download_of_stored_grows.
Qed.

Ltac downloads_step w Hw :=
  cbn; unfold execute, send; cbn; rewrite <- ?app_assoc; cbn;
  try exact Hw;
  try (apply (only_stored_downloads_extend w); [exact Hw|reflexivity|];
       cbn; solve [left; reflexivity | right; left; reflexivity]).

Lemma reachable_only_stored_downloads (c : Config) :
  reachable c -> only_stored_downloads (world c).
Proof.
  intros Hc. apply (reachable_keeps only_stored_downloads); try exact Hc.
  - split; [discriminate|constructor].
  - intros files w Hw. unfold handleFileChange.
    destruct files as [[|sel rest]|]; try exact Hw.
    destruct (file_type sel =? "application/pdf"); downloads_step w Hw.
  - intros w Hw. unfold handleDownload.
    destruct (presentationId (state w)) as [id|] eqn:E; [|exact Hw].
    destruct (truthy (Some id)) eqn:Et; [|exact Hw].
    destruct Hw as [Hid Hop]. split; cbn.
    + intros id' E'. rewrite stored_presentations_app. apply in_or_app.
      left. apply Hid. exact E'.
    + rewrite opened_app. apply Forall_app. split.
      * eapply Forall_impl; [|exact Hop].
        intros nav. apply download_of_stored_grows.
      * constructor; [|constructor]. split; [reflexivity|].
        exists id. repeat split.
        -- apply truthy_some. exact Et.
        -- rewrite stored_presentations_app. apply in_or_app.
           left. apply Hid. exact E.
  - intros w Hw. unfold handleUpload.
    destruct (file (state w)) as [f|]; downloads_step w Hw.
  - intros s. unfold handleUpload. destruct (file s) as [f|]; walk downloads_step.
Qed.

(** X14.  In every configuration the page can reach, each window it has
    opened has the target [_blank] and the address [API_URL/download/id]
    of a non-empty identifier [id] that a successful conversion stored
    before; the page navigates nowhere else. *)
Theorem only_stored_presentations_are_opened (c : Config) (nav : string * string) :
  reachable c ->
  In nav (opened (log (world c))) ->
  snd nav = "_blank" /\
  exists id, id <> "" /\
             fst nav = API_URL ++ "/download/" ++ id /\
             In (Some id) (stored_presentations (log (world c))).
Proof.
  intros Hc Hin. destruct (reachable_only_stored_downloads c Hc) as [_ H].
  rewrite Forall_forall in H. exact (H nav Hin).
Qed.

Lemma later_reachable (c c' : Config) : reachable c -> later c c' -> reachable c'.
Proof.
  intros Hc Hl. induction Hl as [|c' c'' _ IH Hstep]; [exact Hc|].
  exact (reachable_step c' c'' IH Hstep).
Qed.

Ltac cells_step w Hw :=
  cbn; unfold execute, send; cbn; try exact Hw; try reflexivity.

Lemma step_keeps_file_set (c c' : Config) :
  reachable c -> step c c' ->
  is_set (file (state (world c))) = true ->
  is_set (file (state (world c'))) = true.
Proof.
  intros Hc Hstep.
  apply (step_keeps (fun w => is_set (file (state w)) = true) c c'); try exact Hstep.
  - intros files w Hw. unfold handleFileChange.
    destruct files as [[|sel rest]|]; try exact Hw.
    destruct (file_type sel =? "application/pdf"); cells_step w Hw.
  - intros w Hw. unfold handleDownload.
    destruct (presentationId (state w)) as [id|]; [|exact Hw].
    destruct (truthy (Some id)); cells_step w Hw.
  - intros w Hw. unfold handleUpload.
    destruct (file (state w)) as [f|] eqn:E; [|discriminate Hw].
    cbn. rewrite E. reflexivity.
  - apply reachable_parked_keeps; [|exact Hc].
    intros s. unfold handleUpload. destruct (file s) as [f|]; walk cells_step.
Qed.

(** X15.  Nothing the page does later removes a selection: from a
    reachable configuration with a file selected, every later
    configuration has a file selected. *)
Theorem selection_is_never_removed (c c' : Config) :
  reachable c ->
  later c c' ->
  is_set (file (state (world c))) = true ->
  is_set (file (state (world c'))) = true.
Proof.
  intros Hc Hl. induction Hl as [|c' c'' Hl IH Hstep]; [auto|].
  intros H.
  exact (step_keeps_file_set c' c'' (later_reachable c c' Hc Hl) Hstep (IH H)).
Qed.

(** ** Runs amid other events *)

Lemma stored_slides_app (l l' : list Effect) :
  stored_slides (l ++ l') = (stored_slides l ++ stored_slides l')%list.
Proof. apply flat_map_app. Qed.

Lemma handle_all_snoc (evs : list UiEvent) (ev : UiEvent) (w : World) :
  handle_all (evs ++ [ev]) w = handle (handle_all evs w) ev.
Proof. unfold handle_all. rewrite fold_left_app. reflexivity. Qed.

Ltac frame_step :=
  cbn; unfold execute; cbn;
  rewrite ?requests_app, ?stored_presentations_app, ?stored_slides_app;
  cbn; rewrite ?app_nil_r; repeat split; auto.

Lemma untouched_handle (w : World) (ev : UiEvent) : untouched w (handle w ev).
Proof.
  unfold untouched, handle, handler_of. destruct ev as [files|].
  - unfold handleFileChange.
    destruct files as [[|sel rest]|]; [frame_step| |frame_step].
    destruct (file_type sel =? "application/pdf"); frame_step.
  - unfold handleDownload.
    destruct (presentationId (state w)) as [id|] eqn:E; [|frame_step].
    destruct (truthy (Some id)); frame_step.
Qed.

Lemma untouched_handle_all (evs : list UiEvent) (w : World) :
  untouched w (handle_all evs w).
Proof.
  induction evs as [|ev evs IH] using rev_ind.
  - unfold untouched. cbn. auto 10.
  - rewrite handle_all_snoc.
    pose proof (untouched_handle (handle_all evs w) ev) as H.
    unfold untouched in *.
    destruct IH as (I1 & I2 & I3 & I4 & I5 & I6 & I7 & I8).
    destruct H as (H1 & H2 & H3 & H4 & H5 & H6 & H7 & H8).
    repeat split; try congruence. auto.
Qed.

Lemma handle_all_uploading (evs : list UiEvent) (w : World) :
  uploading (state (handle_all evs w)) = uploading (state w).
Proof. apply (untouched_handle_all evs w). Qed.

Lemma handle_all_processing (evs : list UiEvent) (w : World) :
  processing (state (handle_all evs w)) = processing (state w).
Proof. apply (untouched_handle_all evs w). Qed.

Lemma handle_all_presentationId (evs : list UiEvent) (w : World) :
  presentationId (state (handle_all evs w)) = presentationId (state w).
Proof. apply (untouched_handle_all evs w). Qed.

Lemma handle_all_slides (evs : list UiEvent) (w : World) :
  slides (state (handle_all evs w)) = slides (state w).
Proof. apply (untouched_handle_all evs w). Qed.

Lemma handle_all_requests (evs : list UiEvent) (w : World) :
  requests (log (handle_all evs w)) = requests (log w).
Proof. apply (untouched_handle_all evs w). Qed.

Lemma handle_all_stored_presentations (evs : list UiEvent) (w : World) :
  stored_presentations (log (handle_all evs w)) = stored_presentations (log w).
Proof. apply (untouched_handle_all evs w). Qed.

Lemma handle_all_stored_slides (evs : list UiEvent) (w : World) :
  stored_slides (log (handle_all evs w)) = stored_slides (log w).
Proof. apply (untouched_handle_all evs w). Qed.

Lemma handle_all_file_set (evs : list UiEvent) (w : World) :
  is_set (file (state w)) = true ->
  is_set (file (state (handle_all evs w))) = true.
Proof. apply (untouched_handle_all evs w). Qed.

(** What an event does to the error message depends on the event alone:
    it leaves it, clears it, or sets the type error. *)
Lemma handle_error (w : World) (ev : UiEvent) :
  error (state (handle w ev)) =
  match ev with
  | FileChosen (Some (f :: _)) =>
      if file_type f =? "application/pdf" then None
      else Some "Please select a PDF file"
  | _ => error (state w)
  end.
Proof.
  unfold handle. destruct ev as [[[|sel rest]|]|]; cbn; try reflexivity.
  - unfold handleFileChange.
    destruct (file_type sel =? "application/pdf"); reflexivity.
  - unfold handleDownload. destruct (presentationId (state w)) as [id|];
      [|reflexivity].
    destruct (truthy (Some id)); reflexivity.
Qed.

Lemma handle_all_no_stale_error (evs : list UiEvent) (w : World) :
  no_stale_error w -> no_stale_error (handle_all evs w).
Proof.
  induction evs as [|ev evs IH] using rev_ind; [auto|].
  intros H. rewrite handle_all_snoc. unfold no_stale_error in *.
  rewrite handle_error. specialize (IH H).
  destruct ev as [[[|sel rest]|]|]; auto.
  destruct (file_type sel =? "application/pdf"); auto.
Qed.

Lemma handle_all_error_undisturbed (evs : list UiEvent) (w : World) :
  forallb (fun ev => negb (disturbs ev)) evs = true ->
  error (state w) = None ->
  error (state (handle_all evs w)) = None.
Proof.
  induction evs as [|ev evs IH] using rev_ind; [auto|].
  intros Hq He. rewrite forallb_app in Hq. apply andb_prop in Hq as [Hq Hev].
  cbn in Hev. rewrite andb_true_r in Hev.
  rewrite handle_all_snoc, handle_error. specialize (IH Hq He).
  destruct ev as [[[|sel rest]|]|]; auto.
  cbn in Hev. apply negb_true_iff, negb_false_iff in Hev. rewrite Hev. reflexivity.
Qed.

Lemma handle_all_error_same (evs : list UiEvent) (w1 w2 : World) :
  error (state w1) = error (state w2) ->
  error (state (handle_all evs w1)) = error (state (handle_all evs w2)).
Proof.
  induction evs as [|ev evs IH] using rev_ind; [auto|].
  intros H. rewrite !handle_all_snoc, !handle_error. specialize (IH H).
  destruct ev as [[[|sel rest]|]|]; auto.
Qed.

Lemma undisturbed_gap (gaps : list (list UiEvent)) :
  undisturbed gaps = true ->
  forallb (fun ev => negb (disturbs ev)) (hd [] gaps) = true /\
  undisturbed (tl gaps) = true.
Proof.
  destruct gaps as [|g gaps]; cbn; [auto|]. apply andb_prop.
Qed.

(** With no event in any gap, [run_amid] is [run]. *)
Lemma run_amid_nil (net : Network) (p : Prog unit) : forall w,
  run_amid net [] p w = run net p w.
Proof.
  induction p as [r|err|a k IH|e req k IH|e resp k IH]; intros w; cbn; auto.
Qed.

(** The events of a gap are turns of the event loop that leave what is
    parked where it is. *)
Lemma events_reachable (evs : list UiEvent) (others : list Suspended) : forall w,
  reachable {| world := w; inflight := others |} ->
  reachable {| world := handle_all evs w; inflight := others |}.
Proof.
  induction evs as [|ev evs IH]; intros w H; [exact H|].
  apply (IH (handle w ev)).
  eapply reachable_step; [exact H|].
  destruct ev as [files|].
  - pose proof (step_file_change {| world := w; inflight := others |} files) as S.
    destruct (handleFileChange_sync files w) as (w' & E & _).
    unfold handle, handler_of. unfold park in S. cbn in S.
    rewrite E in *. cbn in *. rewrite app_nil_r in S. exact S.
  - pose proof (step_download {| world := w; inflight := others |}) as S.
    destruct (handleDownload_sync (state w) w) as (w' & E & _).
    unfold handle, handler_of. unfold park in S. cbn in S.
    rewrite E in *. cbn in *. rewrite app_nil_r in S. exact S.
Qed.

(** While a handler is parked the event loop has no other turns than
    those [run_amid] takes: an event of [UiEvent] that leaves the handler
    parked, or the settlement that resumes it. *)
Lemma parked_turns (c c' : Config) (t : Suspended) :
  reachable c ->
  inflight c = [t] ->
  step c c' ->
  (exists ev, c' = {| world := handle (world c) ev; inflight := [t] |}) \/
  match t with
  | OnFetch e k => exists r, c' = park (advance (k r) (world c)) []
  | OnJson e resp k => c' = park (advance (k (json_body resp)) (world c)) []
  end.
Proof.
  intros Hc Ht Hstep. pose proof (reachable_single_flight c Hc) as Hsf.
  destruct Hstep.
  - left. exists (FileChosen files).
    destruct (handleFileChange_sync files (world c)) as (w' & E & _).
    unfold handle, handler_of, park. rewrite E, Ht. reflexivity.
  - rewrite (single_flight_idle c Hsf H) in Ht. discriminate Ht.
  - left. exists DownloadClicked.
    destruct (handleDownload_sync (state (world c)) (world c)) as (w' & E & _).
    unfold handle, handler_of, park. rewrite E, Ht. reflexivity.
  - right. cbn in Ht.
    apply single_flight_alone in Hsf as (-> & -> & _).
    injection Ht as <-. exists r. reflexivity.
  - right. cbn in Ht.
    apply single_flight_alone in Hsf as (-> & -> & _).
    injection Ht as <-. reflexivity.
Qed.

(** A run amid events is an execution of the event loop. *)
Lemma run_amid_reachable (net : Network) (p : Prog unit) : forall gaps w,
  reachable (park (advance p w) []) ->
  reachable {| world := snd (run_amid net gaps p w); inflight := [] |}.
Proof.
  induction p as [r|err|a k IH|e req k IH|e resp k IH]; intros gaps w H; cbn in *.
  - exact H.
  - exact H.
  - apply IH, H.
  - apply IH.
    apply (events_reachable (hd [] gaps)) in H.
    eapply reachable_step; [exact H|].
    exact (step_fetch_settled (handle_all (hd [] gaps) (send req w)) [] e k []
             (respond net e)).
  - apply IH.
    apply (events_reachable (hd [] gaps)) in H.
    eapply reachable_step; [exact H|].
    exact (step_json_settled (handle_all (hd [] gaps) w) [] e resp k []).
Qed.

Lemma submit_amid_reachable (net : Network) (gaps : list (list UiEvent)) (w : World) :
  reachable {| world := w; inflight := [] |} ->
  reachable {| world := snd (run_amid net gaps (handleUpload (state w)) w);
               inflight := [] |}.
Proof.
  intros H. apply run_amid_reachable.
  pose proof (reachable_single_flight _ H) as [Hu Hp]. cbn in Hu, Hp.
  eapply reachable_step; [exact H|].
  apply (step_convert {| world := w; inflight := [] |}).
  cbn. rewrite Hu, Hp. reflexivity.
Qed.

(** Computes through a run amid events, moving the frame facts of
    [untouched] inwards. *)
Ltac amid :=
  repeat (cbn -[handle_all]; unfold execute, send; cbn -[handle_all];
          first [ rewrite handle_all_uploading
                | rewrite handle_all_processing
                | rewrite handle_all_presentationId
                | rewrite handle_all_slides
                | rewrite handle_all_requests
                | rewrite handle_all_stored_presentations
                | rewrite handle_all_stored_slides
                | rewrite requests_app
                | rewrite stored_presentations_app
                | rewrite stored_slides_app ]);
  cbn -[handle_all].


(** A successful conversion amid events. *)
Lemma success_amid (s : State) (f : File) (st1 fileId st2 p : string)
  (sl : list Slide) (gaps : list (list UiEvent)) :
  file s = Some f ->
  let net := both_succeed st1 fileId st2 p sl in
  let w' := snd (run_amid net gaps (handleUpload s) (start s)) in
  fst (run_amid net gaps (handleUpload s) (start s)) = Returned /\
  requests (log w') = [upload_request f; process_request fileId] /\
  stored_presentations (log w') = [Some p] /\
  stored_slides (log w') = [sl] /\
  presentationId (state w') = Some p /\
  slides (state w') = sl /\
  uploading (state w') = false /\
  processing (state w') = false /\
  is_set (file (state w')) = true /\
  no_stale_error w' /\
  (undisturbed gaps = true -> error (state w') = None).
Proof.
  intros Hf net w'. subst net w'. unfold handleUpload. rewrite Hf.
  do 8 (split; [amid; reflexivity|]).
  split; [|split].
  - cbn -[handle_all].
    repeat apply handle_all_file_set. cbn. rewrite Hf. reflexivity.
  - unfold no_stale_error. cbn -[handle_all].
    repeat (apply handle_all_no_stale_error; unfold no_stale_error;
            cbn -[handle_all]).
    left. reflexivity.
  - intros Hq.
    apply undisturbed_gap in Hq as [H1 Hq].
    apply undisturbed_gap in Hq as [H2 Hq].
    apply undisturbed_gap in Hq as [H3 Hq].
    apply undisturbed_gap in Hq as [H4 _].
    cbn -[handle_all].
    apply (handle_all_error_undisturbed _ _ H4). cbn -[handle_all].
    apply (handle_all_error_undisturbed _ _ H3). cbn -[handle_all].
    apply (handle_all_error_undisturbed _ _ H2). cbn -[handle_all].
    apply (handle_all_error_undisturbed _ _ H1). reflexivity.
Qed.

(** A conversion stopped by an exception, amid events. *)
Lemma failure_amid (s : State) (f : File) (net : Network) (err : Thrown)
  (gaps : list (list UiEvent)) :
  file s = Some f ->
  raises net err ->
  let w' := snd (run_amid net gaps (handleUpload s) (start s)) in
  fst (run_amid net gaps (handleUpload s) (start s)) = Returned /\
  uploading (state w') = false /\
  processing (state w') = false /\
  is_set (file (state w')) = true /\
  error (state w') = Some (error_text err).
Proof.
  intros Hf Hr w'. subst w'. unfold handleUpload. rewrite Hf.
  destruct Hr;
    repeat match goal with
    | net : Network |- _ => destruct net
    | r : Response _ |- _ => destruct r
    end; cbn -[handle_all] in *; subst;
    (do 3 (split; [amid; reflexivity|]); split; [|amid; reflexivity]);
    cbn -[handle_all]; repeat apply handle_all_file_set; cbn; rewrite Hf;
    reflexivity.
Qed.

(** The error message a successful conversion ends with is decided by the
    events handled during it, not by the state it started from. *)
Lemma success_error_same (s1 s2 : State) (f1 f2 : File)
  (st1 fileId st2 p : string) (sl : list Slide) (gaps : list (list UiEvent)) :
  file s1 = Some f1 ->
  file s2 = Some f2 ->
  let net := both_succeed st1 fileId st2 p sl in
  error (state (snd (run_amid net gaps (handleUpload s1) (start s1)))) =
  error (state (snd (run_amid net gaps (handleUpload s2) (start s2)))).
Proof.
  intros H1 H2 net. subst net. unfold handleUpload. rewrite H1, H2.
  cbn -[handle_all].
  do 4 (apply handle_all_error_same; cbn -[handle_all]).
  reflexivity.
Qed.

(** C1, as the code has it.  When the upload answers [{filename: fileId}]
    and the process request answers [{filename: p, slides: sl}], both
    with a success status, then whatever file choices and download clicks
    are handled while the requests are outstanding, [handleUpload]
    returns having issued the two requests in order, calls
    [setPresentationId] once, with [p], and [setSlides] once, with [sl],
    and ends with both flags down and without the error message that was
    shown before: the message is [null] or the type error of a file
    chosen during the run.  When no file of another type is chosen during
    the run, there is no error message and the state is ready.  In the
    scenario of the specification (select [report.pdf], submit, upload
    answers [abc123], process answers [abc123.pptx] with the slide
    "Intro" and its two bullets, no other event) the final state is ready
    with that one slide, and [handleDownload] opens
    [API_URL/download/abc123.pptx] in a new browsing context. *)
Theorem submit_success_amid_events :
  (forall (s : State) (f : File) (st1 fileId st2 p : string) (sl : list Slide)
          (gaps : list (list UiEvent)),
     file s = Some f ->
     let net := both_succeed st1 fileId st2 p sl in
     let w' := snd (run_amid net gaps (handleUpload s) (start s)) in
     fst (run_amid net gaps (handleUpload s) (start s)) = Returned /\
     requests (log w') = [upload_request f; process_request fileId] /\
     stored_presentations (log w') = [Some p] /\
     stored_slides (log w') = [sl] /\
     presentationId (state w') = Some p /\
     slides (state w') = sl /\
     uploading (state w') = false /\
     processing (state w') = false /\
     (error (state w') = None \/
      error (state w') = Some "Please select a PDF file") /\
     (undisturbed gaps = true ->
      error (state w') = None /\ in_phase Ready (state w') = true)) /\
  (forall blob : list Byte.byte,
     let report := mkFile "report.pdf" "application/pdf" blob in
     let intro := mkSlide "Intro" ["point A"; "point B"] in
     let net := both_succeed "OK" "abc123" "OK" "abc123.pptx" [intro] in
     let s1 := state (snd (run_amid net [] (handleFileChange (Some [report]))
                             (start initial_state))) in
     let s2 := state (snd (run_amid net [] (handleUpload s1) (start s1))) in
     in_phase Ready s2 = true /\
     slides s2 = [intro] /\
     map title (slides s2) = ["Intro"] /\
     map (fun sd => List.length (content sd)) (slides s2) = [2] /\
     log (snd (run_amid net [] (handleDownload s2) (start s2))) =
       [Performed (windowOpen (API_URL ++ "/download/abc123.pptx") "_blank")]).
Proof.
  split.
  - intros s f st1 fileId st2 p sl gaps Hf net w'.
    destruct (success_amid s f st1 fileId st2 p sl gaps Hf)
      as (H1 & H2 & H3 & H4 & H5 & H6 & H7 & H8 & _ & H10 & H11).
    fold net in H1, H2, H3, H4, H5, H6, H7, H8, H10, H11.
    fold w' in H2, H3, H4, H5, H6, H7, H8, H10, H11.
    do 8 (split; [assumption|]). split; [exact H10|].
    intros Hq. specialize (H11 Hq). split; [exact H11|].
    cbn. rewrite H7, H8, H11, H5. reflexivity.
  - intros blob. cbn. repeat split; reflexivity.
Qed.


(** X3.  A failed run leaves nothing in the flags, the error message, the
    identifier or the slides that a later successful run does not
    overwrite: after a failure and then a success, these cells are what
    the successful run alone would have left, whatever events are
    handled during either run. *)
Theorem retry_after_failure_recovers
  (s : State) (f : File) (net : Network) (err : Thrown)
  (st1 fileId st2 p : string) (sl : list Slide)
  (gaps1 gaps2 : list (list UiEvent)) :
  file s = Some f ->
  raises net err ->
  let retry := both_succeed st1 fileId st2 p sl in
  let failed := state (snd (run_amid net gaps1 (handleUpload s) (start s))) in
  let after :=
    state (snd (run_amid retry gaps2 (handleUpload failed) (start failed))) in
  let alone := state (snd (run_amid retry gaps2 (handleUpload s) (start s))) in
  uploading after = uploading alone /\
  processing after = processing alone /\
  error after = error alone /\
  presentationId after = presentationId alone /\
  slides after = slides alone /\
  uploading after = false /\
  processing after = false /\
  presentationId after = Some p /\
  slides after = sl.
Proof.
  intros Hf Hr retry failed after alone.
  destruct (failure_amid s f net err gaps1 Hf Hr) as (_ & _ & _ & Hset & _).
  fold failed in Hset.
  destruct (file failed) as [f'|] eqn:Hf'; [|discriminate Hset].
  destruct (success_amid failed f' st1 fileId st2 p sl gaps2 Hf')
    as (_ & _ & _ & _ & A5 & A6 & A7 & A8 & _).
  destruct (success_amid s f st1 fileId st2 p sl gaps2 Hf)
    as (_ & _ & _ & _ & B5 & B6 & B7 & B8 & _).
  pose proof (success_error_same failed s f' f st1 fileId st2 p sl gaps2 Hf' Hf)
    as He.
  subst after alone retry. cbv zeta in He.
  repeat split; congruence.
Qed.

(** The sample configurations are reachable. *)
Lemma selected_config_reachable : reachable selected_config.
Proof.
  eapply reachable_step; [apply reachable_loaded|].
  apply (step_file_change {| world := start initial_state; inflight := [] |}
           (Some [report_pdf])).
Qed.

Lemma uploading_config_reachable : reachable uploading_config.
Proof.
  eapply reachable_step; [apply selected_config_reachable|].
  apply (step_convert selected_config). reflexivity.
Qed.

Lemma converted_config_reachable : reachable converted_config.
Proof.
  apply (submit_is_reachable scenario_network (world selected_config)).
  apply selected_config_reachable.
Qed.

Lemma disturbed_config_reachable : reachable disturbed_config.
Proof.
  apply (submit_amid_reachable scenario_network _ (world selected_config)).
  apply selected_config_reachable.
Qed.

Lemma downloaded_config_reachable : reachable downloaded_config.
Proof.
  eapply reachable_step; [apply converted_config_reachable|].
  apply (step_download converted_config).
Qed.

End Component.

(** ** The theorems at the sample data *)

(** C1 as stated fails: in the conversion of the scenario both requests
    succeed, but [notes.txt] is chosen while the upload is unanswered;
    the run stores the result and ends with the type error shown, not in
    the ready state. *)
Lemma successful_submit_amid_rejected_choice_not_ready :
  reachable None (disturbed_config None) /\
  requests (log (world (disturbed_config None))) =
    [upload_request None report_pdf; process_request None "abc123"] /\
  presentationId (state (world (disturbed_config None))) = Some "abc123.pptx" /\
  slides (state (world (disturbed_config None))) = [intro_slide] /\
  error (state (world (disturbed_config None))) = Some "Please select a PDF file" /\
  in_phase Ready (state (world (disturbed_config None))) = false /\
  in_phase Errored (state (world (disturbed_config None))) = true.
Proof.
  split; [exact (disturbed_config_reachable None)|].
  repeat split; reflexivity.
Qed.

(** The conversion of the scenario amid a download click and a second
    choice of [report.pdf]. *)
Lemma submit_success_amid_harmless_events :
  file selected = Some report_pdf /\
  undisturbed [[DownloadClicked]; []; [FileChosen (Some [report_pdf])]] = true /\
  presentationId
    (state (snd (run_amid None scenario_network
                   [[DownloadClicked]; []; [FileChosen (Some [report_pdf])]]
                   (handleUpload None selected) (start selected))))
    = Some "abc123.pptx" /\
  error
    (state (snd (run_amid None scenario_network
                   [[DownloadClicked]; []; [FileChosen (Some [report_pdf])]]
                   (handleUpload None selected) (start selected))))
    = None /\
  in_phase Ready
    (state (snd (run_amid None scenario_network
                   [[DownloadClicked]; []; [FileChosen (Some [report_pdf])]]
                   (handleUpload None selected) (start selected))))
    = true.
Proof.
  split; [reflexivity|]. split; [reflexivity|].
  pose proof (proj1 (submit_success_amid_events None)
                selected report_pdf "OK" "abc123" "OK" "abc123.pptx" [intro_slide]
                [[DownloadClicked]; []; [FileChosen (Some [report_pdf])]]
                eq_refl) as H.
  cbv zeta in H. destruct H as (_ & _ & _ & _ & Hp & _ & _ & _ & _ & Hq).
  exact (conj Hp (Hq eq_refl)).
Defined.

(** An upload refused with status text "Payload Too Large". *)
Lemma upload_failure_at_refused_upload :
  file selected = Some report_pdf /\
  ok (mkResponse false "Payload Too Large" (@Rejected UploadData OtherValue)) = false /\
  requests (effects_of upload_refused (handleUpload None selected) selected) =
    [upload_request None report_pdf] /\
  in_phase Errored (state_after upload_refused (handleUpload None selected) selected) = true /\
  error (state_after upload_refused (handleUpload None selected) selected) =
    Some "Upload failed: Payload Too Large".
Proof.
  split; [reflexivity|]. split; [reflexivity|].
  pose proof (upload_failure_skips_processing None selected report_pdf upload_refused
                (mkResponse false "Payload Too Large" (Rejected OtherValue))
                eq_refl eq_refl eq_refl) as H.
  cbv zeta in H. destruct H as (Hreq & _ & _ & Hph & Herr).
  exact (conj Hreq (conj Hph Herr)).
Defined.

(** C3 as stated fails: after the conversion of the scenario, a second
    submit whose process request is refused leaves the identifier
    [abc123.pptx] in place; it is not unset. *)
Lemma process_failure_identifier_not_unset :
  file (converted None) = Some report_pdf /\
  upload_pdf process_refused =
    Resolved (mkResponse true "OK" (Resolved (mkUploadData "def456"))) /\
  process_pdf process_refused =
    Resolved (mkResponse false "Internal Server Error" (Rejected OtherValue)) /\
  presentationId
    (state_after process_refused (handleUpload None (converted None)) (converted None))
    = Some "abc123.pptx" /\
  presentationId
    (state_after process_refused (handleUpload None (converted None)) (converted None))
    <> None.
Proof.
  repeat split; try reflexivity. discriminate.
Qed.

(** A refused process request after the conversion of the scenario. *)
Lemma process_failure_at_second_submit :
  file (converted None) = Some report_pdf /\
  presentationId
    (state_after process_refused (handleUpload None (converted None)) (converted None))
    = presentationId (converted None) /\
  error
    (state_after process_refused (handleUpload None (converted None)) (converted None))
    = Some "Processing failed: Internal Server Error".
Proof.
  split; [reflexivity|].
  pose proof (process_failure_keeps_presentation None (converted None) report_pdf
                process_refused
                (mkResponse true "OK" (Resolved (mkUploadData "def456")))
                (mkUploadData "def456")
                (mkResponse false "Internal Server Error" (Rejected OtherValue))
                eq_refl eq_refl eq_refl eq_refl eq_refl eq_refl) as H.
  cbv zeta in H. destruct H as (Hp & _ & _ & Herr).
  exact (conj Hp Herr).
Defined.

(** Choosing [notes.txt] after the conversion of the scenario. *)
Lemma select_non_pdf_at_notes :
  file_type notes_txt <> "application/pdf" /\
  error (state_after scenario_network (handleFileChange (Some [notes_txt])) (converted None))
    = Some "Please select a PDF file" /\
  file (state_after scenario_network (handleFileChange (Some [notes_txt])) (converted None))
    = Some report_pdf /\
  requests (effects_of scenario_network (handleFileChange (Some [notes_txt])) (converted None))
    = [].
Proof.
  assert (Hty : file_type notes_txt <> "application/pdf")
    by (intros H; discriminate H).
  split; [exact Hty|].
  pose proof (select_non_pdf_only_sets_error (converted None) notes_txt []
                scenario_network Hty) as H.
  cbv zeta in H. destruct H as (Herr & Hf & _ & _ & _ & _ & Hreq & _).
  exact (conj Herr (conj Hf Hreq)).
Defined.

(** A click on the freshly loaded page. *)
Lemma submit_without_file_at_load :
  file initial_state = None /\
  error (state_after scenario_network (handleUpload None initial_state) initial_state)
    = Some "Please select a file first" /\
  requests (effects_of scenario_network (handleUpload None initial_state) initial_state)
    = [].
Proof.
  split; [reflexivity|].
  pose proof (submit_without_file_only_sets_error None initial_state
                scenario_network eq_refl) as H.
  cbv zeta in H. destruct H as (_ & Herr & Hreq & _).
  exact (conj Herr Hreq).
Defined.

(** C6 as stated fails: after a conversion the server answered with the
    file name [""], the identifier cell holds that string, not [null],
    and [handleDownload] opens nothing. *)
Lemma download_with_empty_identifier_opens_nothing :
  presentationId (converted_unnamed None) = Some "" /\
  effects_of scenario_network (handleDownload None (converted_unnamed None))
    (converted_unnamed None) = [] /\
  opened (effects_of scenario_network (handleDownload None (converted_unnamed None))
            (converted_unnamed None))
    <> [(download_url None "", "_blank")].
Proof.
  repeat split; try reflexivity. discriminate.
Qed.

(** Download on the freshly loaded page and after the scenario. *)
Lemma download_at_load_and_after_scenario :
  truthy (presentationId initial_state) = false /\
  effects_of scenario_network (handleDownload None initial_state) initial_state = [] /\
  presentationId (converted None) = Some "abc123.pptx" /\
  "abc123.pptx" <> "" /\
  effects_of scenario_network (handleDownload None (converted None)) (converted None) =
    [Performed (windowOpen "http://localhost:8000/download/abc123.pptx" "_blank")].
Proof.
  assert (Hne : "abc123.pptx" <> "") by (intros H; discriminate H).
  split; [reflexivity|].
  split; [exact (proj1 (proj1 (download_opens_nonempty_identifier None initial_state
                                 scenario_network) eq_refl))|].
  split; [reflexivity|]. split; [exact Hne|].
  exact (proj1 (proj2 (download_opens_nonempty_identifier None (converted None)
                         scenario_network) "abc123.pptx" eq_refl Hne)).
Defined.

(** The server cannot be reached and [fetch] rejects with a value that is
    not an [Error]. *)
Lemma submit_catches_at_unreachable_server :
  file selected = Some report_pdf /\
  raises unreachable_network OtherValue /\
  fst (run unreachable_network (handleUpload None selected) (start selected)) = Returned /\
  error (state_after unreachable_network (handleUpload None selected) selected)
    = Some "An unknown error occurred" /\
  uploading (state_after unreachable_network (handleUpload None selected) selected) = false /\
  processing (state_after unreachable_network (handleUpload None selected) selected) = false.
Proof.
  assert (Hr : raises unreachable_network OtherValue)
    by exact (upload_rejected unreachable_network OtherValue eq_refl).
  split; [reflexivity|]. split; [exact Hr|].
  pose proof (submit_catches_every_exception None selected report_pdf
                unreachable_network OtherValue eq_refl Hr) as H.
  cbv zeta in H. destruct H as (_ & Hret & Herr & Hu & Hp).
  exact (conj Hret (conj Herr (conj Hu Hp))).
Defined.

(** The page while the upload of the scenario is unanswered. *)
Lemma one_phase_while_uploading :
  reachable None (uploading_config None) /\
  in_phase Uploading (state (world (uploading_config None))) = true /\
  (exists! ph, in_phase ph (state (world (uploading_config None))) = true) /\
  uploading (state (world (uploading_config None)))
    && processing (state (world (uploading_config None))) = false.
Proof.
  assert (Hr : reachable None (uploading_config None)).
  { unfold uploading_config.
    eapply reachable_step.
    - eapply reachable_step; [apply reachable_loaded|].
      apply (step_file_change None
               {| world := start initial_state; inflight := [] |}
               (Some [report_pdf])).
    - apply step_convert. reflexivity. }
  split; [exact Hr|]. split; [reflexivity|].
  exact (reachable_in_exactly_one_phase None (uploading_config None) Hr).
Defined.

(** Choosing [report.pdf] while the type error of [notes.txt] is shown. *)
Lemma select_pdf_after_type_error :
  file_type report_pdf = "application/pdf" /\
  error (state_after scenario_network (handleFileChange (Some [notes_txt])) initial_state)
    = Some "Please select a PDF file" /\
  file (state_after scenario_network (handleFileChange (Some [report_pdf]))
          (state_after scenario_network (handleFileChange (Some [notes_txt])) initial_state))
    = Some report_pdf /\
  error (state_after scenario_network (handleFileChange (Some [report_pdf]))
           (state_after scenario_network (handleFileChange (Some [notes_txt])) initial_state))
    = None.
Proof.
  split; [reflexivity|]. split; [reflexivity|].
  pose proof (select_pdf_stores_file_and_clears_error
                (state_after scenario_network (handleFileChange (Some [notes_txt]))
                   initial_state)
                report_pdf [] scenario_network eq_refl) as H.
  cbv zeta in H. destruct H as (Hf & Herr & _).
  exact (conj Hf Herr).
Defined.

(** A refused process request after the conversion of the scenario: the
    old presentation stays downloadable. *)
Lemma failed_submit_after_scenario :
  file (converted None) = Some report_pdf /\
  raises process_refused (ErrorObject "Processing failed: Internal Server Error") /\
  presentationId
    (state_after process_refused (handleUpload None (converted None)) (converted None))
    = Some "abc123.pptx" /\
  slides
    (state_after process_refused (handleUpload None (converted None)) (converted None))
    = [intro_slide] /\
  effects_of scenario_network
    (handleDownload None
       (state_after process_refused (handleUpload None (converted None)) (converted None)))
    (state_after process_refused (handleUpload None (converted None)) (converted None))
    = [Performed (windowOpen "http://localhost:8000/download/abc123.pptx" "_blank")].
Proof.
  assert (Hne : "abc123.pptx" <> "") by (intros H; discriminate H).
  assert (Hr : raises process_refused
                 (ErrorObject "Processing failed: Internal Server Error"))
    by exact (process_status process_refused
                (mkResponse true "OK" (Resolved (mkUploadData "def456")))
                (mkUploadData "def456")
                (mkResponse false "Internal Server Error" (Rejected OtherValue))
                eq_refl eq_refl eq_refl eq_refl eq_refl).
  split; [reflexivity|]. split; [exact Hr|].
  pose proof (failed_submit_keeps_previous_result None (converted None) report_pdf
                process_refused scenario_network
                (ErrorObject "Processing failed: Internal Server Error")
                eq_refl Hr) as H.
  cbv zeta in H. destruct H as (Hp & Hs & _ & Hd).
  exact (conj Hp (conj Hs (Hd "abc123.pptx" eq_refl Hne))).
Defined.

(** ** The further properties at the sample data *)

(** The process request of a conversion whose process step is refused
    still carries the identifier the upload returned. *)
Lemma submit_sends_identifier_at_refused_process :
  file selected = Some report_pdf /\
  requests (effects_of process_refused (handleUpload None selected) selected) =
    [upload_request None report_pdf; process_request None "def456"].
Proof.
  split; [reflexivity|].
  exact (submit_sends_upload_then_its_identifier None selected report_pdf
           process_refused eq_refl).
Defined.


(** The scenario retried after a refused process request during which
    [notes.txt] was chosen. *)
Lemma retry_recovers_at_scenario :
  file selected = Some report_pdf /\
  raises process_refused (ErrorObject "Processing failed: Internal Server Error") /\
  presentationId
    (state (snd (run_amid None scenario_network []
      (handleUpload None
         (state (snd (run_amid None process_refused [[FileChosen (Some [notes_txt])]]
                        (handleUpload None selected) (start selected)))))
      (start
         (state (snd (run_amid None process_refused [[FileChosen (Some [notes_txt])]]
                        (handleUpload None selected) (start selected))))))))
    = Some "abc123.pptx" /\
  error
    (state (snd (run_amid None scenario_network []
      (handleUpload None
         (state (snd (run_amid None process_refused [[FileChosen (Some [notes_txt])]]
                        (handleUpload None selected) (start selected)))))
      (start
         (state (snd (run_amid None process_refused [[FileChosen (Some [notes_txt])]]
                        (handleUpload None selected) (start selected))))))))
    = error (state (snd (run_amid None scenario_network []
                           (handleUpload None selected) (start selected)))).
Proof.
  assert (Hr : raises process_refused
                 (ErrorObject "Processing failed: Internal Server Error"))
    by exact (process_status process_refused
                (mkResponse true "OK" (Resolved (mkUploadData "def456")))
                (mkUploadData "def456")
                (mkResponse false "Internal Server Error" (Rejected OtherValue))
                eq_refl eq_refl eq_refl eq_refl eq_refl).
  split; [reflexivity|]. split; [exact Hr|].
  pose proof (retry_after_failure_recovers None selected report_pdf
                process_refused
                (ErrorObject "Processing failed: Internal Server Error")
                "OK" "abc123" "OK" "abc123.pptx" [intro_slide]
                [[FileChosen (Some [notes_txt])]] [] eq_refl Hr) as H.
  cbv zeta in H. destruct H as (_ & _ & He & _ & _ & _ & _ & Hp & _).
  exact (conj Hp He).
Defined.

(** The download button after the scenario. *)
Lemma download_button_after_scenario :
  download_button_disabled (render (converted None)) = false /\
  exists id,
    presentationId (converted None) = Some id /\
    effects_of scenario_network (handleDownload None (converted None)) (converted None) =
      [Performed (windowOpen (download_url None id) "_blank")].
Proof.
  split; [reflexivity|].
  exact (proj1 (proj1 (download_button_matches_handler None (converted None)
                         scenario_network)) eq_refl).
Defined.

(** The convert button once [report.pdf] is chosen. *)
Lemma convert_button_after_selection :
  convert_button_disabled (render selected) = false /\
  exists f,
    file selected = Some f /\
    firstn 3 (effects_of scenario_network (handleUpload None selected) selected) =
      [Performed (setUploading true); Performed (setError None);
       Requested (upload_request None f)].
Proof.
  split; [reflexivity|].
  exact (enabled_convert_uploads_selected_file None selected scenario_network eq_refl).
Defined.

(** A click without a file on the loaded page: the card is empty and the
    alert is shown. *)
Lemma render_after_click_without_file :
  is_set (progress_panel
            (render (state_after scenario_network (handleUpload None initial_state)
                       initial_state))) = false /\
  is_set (preview_panel
            (render (state_after scenario_network (handleUpload None initial_state)
                       initial_state))) = false /\
  placeholder_panel
    (render (state_after scenario_network (handleUpload None initial_state)
               initial_state)) = false /\
  is_set (error_alert
            (render (state_after scenario_network (handleUpload None initial_state)
                       initial_state))) = true.
Proof.
  pose proof (render_shows_one_panel_or_alert
                (state_after scenario_network (handleUpload None initial_state)
                   initial_state)) as H.
  cbv zeta in H. destruct H as (_ & _ & _ & Halert & _).
  exact (conj eq_refl (conj eq_refl (conj eq_refl
           (Halert eq_refl eq_refl eq_refl)))).
Defined.

(** The preview after the scenario. *)
Lemma preview_after_scenario :
  preview_panel (render (converted None)) =
    Some [mkSlideView 0 "Intro" [(0, "point A"); (1, "point B")]] /\
  map heading [mkSlideView 0 "Intro" [(0, "point A"); (1, "point B")]] =
    map title (slides (converted None)) /\
  map slide_key [mkSlideView 0 "Intro" [(0, "point A"); (1, "point B")]] =
    seq 0 (List.length (slides (converted None))).
Proof.
  split; [reflexivity|].
  pose proof (preview_lists_slides_in_order (converted None)
                [mkSlideView 0 "Intro" [(0, "point A"); (1, "point B")]] eq_refl)
    as H.
  destruct H as (Hh & _ & Hk & _).
  exact (conj Hh Hk).
Defined.

(** A configured server address. *)
Lemma api_url_at_configured_address :
  Some "https://api.example.org" = Some "https://api.example.org" /\
  "https://api.example.org" <> "" /\
  API_URL (Some "https://api.example.org") = "https://api.example.org" /\
  API_URL None = "http://localhost:8000".
Proof.
  assert (Hne : "https://api.example.org" <> "") by (intros H; discriminate H).
  split; [reflexivity|]. split; [exact Hne|].
  pose proof (api_url_defaults_and_links_differ (Some "https://api.example.org"))
    as (_ & _ & Hu & _).
  pose proof (api_url_defaults_and_links_differ None) as (_ & Hd & _ & _).
  exact (conj (Hu "https://api.example.org" eq_refl Hne) (Hd eq_refl)).
Defined.

(** After the conversion of the scenario: the selected and the uploaded
    file are PDFs. *)
Lemma only_pdfs_after_scenario :
  reachable None (converted_config None) /\
  file (state (world (converted_config None))) = Some report_pdf /\
  In report_pdf (uploaded_files (log (world (converted_config None)))) /\
  file_type report_pdf = "application/pdf".
Proof.
  assert (Hin : In report_pdf (uploaded_files (log (world (converted_config None)))))
    by (left; reflexivity).
  split; [exact (converted_config_reachable None)|].
  split; [reflexivity|]. split; [exact Hin|].
  exact (proj2 (only_pdfs_are_selected_and_uploaded None (converted_config None)
                  (converted_config_reachable None)) report_pdf Hin).
Defined.

(** While the upload of the scenario is unanswered. *)
Lemma spinner_while_uploading :
  reachable None (uploading_config None) /\
  List.length (inflight (uploading_config None)) = 1 /\
  convert_button_disabled (render (state (world (uploading_config None)))) = true.
Proof.
  assert (Hne : inflight (uploading_config None) <> []) by (intros H; discriminate H).
  split; [exact (uploading_config_reachable None)|]. split; [reflexivity|].
  pose proof (spinner_tracks_the_conversion None (uploading_config None)
                (uploading_config_reachable None)) as (_ & _ & _ & Hb).
  exact (Hb Hne).
Defined.

(** After the conversion of the scenario: one upload, one process
    request. *)
Lemma processing_covered_after_scenario :
  reachable None (converted_config None) /\
  processed_ids (log (world (converted_config None))) = ["abc123"] /\
  List.length (processed_ids (log (world (converted_config None))))
    <= List.length (upload_forms (log (world (converted_config None)))).
Proof.
  split; [exact (converted_config_reachable None)|]. split; [reflexivity|].
  exact (processing_never_outruns_uploads None (converted_config None)
           (converted_config_reachable None)).
Defined.

(** The process request of the scenario. *)
Lemma interface_request_after_scenario :
  reachable None (converted_config None) /\
  In (process_request None "abc123") (requests (log (world (converted_config None)))) /\
  method (process_request None "abc123") = "POST".
Proof.
  assert (Hin : In (process_request None "abc123")
                  (requests (log (world (converted_config None)))))
    by (right; left; reflexivity).
  split; [exact (converted_config_reachable None)|]. split; [exact Hin|].
  exact (proj1 (only_interface_requests_are_sent None (converted_config None)
                  (process_request None "abc123")
                  (converted_config_reachable None) Hin)).
Defined.

(** The download opened after the scenario. *)
Lemma stored_download_after_scenario :
  reachable None (downloaded_config None) /\
  In ("http://localhost:8000/download/abc123.pptx", "_blank")
     (opened (log (world (downloaded_config None)))) /\
  exists id, id <> "" /\
             "http://localhost:8000/download/abc123.pptx"
               = API_URL None ++ "/download/" ++ id /\
             In (Some id) (stored_presentations (log (world (downloaded_config None)))).
Proof.
  assert (Hin : In ("http://localhost:8000/download/abc123.pptx", "_blank")
                  (opened (log (world (downloaded_config None)))))
    by (left; reflexivity).
  split; [exact (downloaded_config_reachable None)|]. split; [exact Hin|].
  exact (proj2 (only_stored_presentations_are_opened None (downloaded_config None)
                  ("http://localhost:8000/download/abc123.pptx", "_blank")
                  (downloaded_config_reachable None) Hin)).
Defined.

(** From the selection of [report.pdf] to the click on the convert
    button. *)
Lemma selection_kept_while_uploading :
  reachable None selected_config /\
  later None selected_config (uploading_config None) /\
  is_set (file (state (world selected_config))) = true /\
  is_set (file (state (world (uploading_config None)))) = true.
Proof.
  assert (Hl : later None selected_config (uploading_config None)).
  { eapply later_step; [apply later_now|].
    apply (step_convert None selected_config). reflexivity. }
  split; [exact (selected_config_reachable None)|]. split; [exact Hl|].
  split; [reflexivity|].
  exact (selection_is_never_removed None selected_config (uploading_config None)
           (selected_config_reachable None) Hl eq_refl).
Defined.
